(** * A limit order book with price-time priority

    Shallow embedding of [capstone_project/order_book.hpp] and
    [capstone_project/order_book.cpp]: the slab allocator, the intrusive
    FIFO queue of a price level, the two ordered side indices, the matching
    loop and the public operations of [OrderBook].

    Conventions of the embedding
    - [uint64_t] and [size_t] values are integers in [Z]; every arithmetic
      operation of the source on them is followed by [wrap64].
    - [double] is [spec_float] at binary64 ([prec = 53], [emax = 1024]);
      comparisons and the subtraction of [get_spread] are the IEEE ones.
    - a pointer into a pool is the address of its slot (a [nat]); a pointer
      that may be null is an [option nat].  The contents of the slabs are a
      finite map from addresses to records, so that two pointers to the same
      slot alias, as they do in the source.
    - [std::map] is an association list kept sorted by its comparator,
      [std::unordered_map] is a [gmap].
    - what the source prints on [std::cout] and [std::cerr] is returned as a
      list of events. *)

From Stdlib Require Import ZArith Bool List Lia.
From Stdlib Require Import Floats.SpecFloat.
From stdpp Require Import gmap list.

Open Scope Z_scope.

(** ** Machine integers *)

Definition wrap64 (z : Z) : Z := z mod 2 ^ 64.

(** ** Doubles *)

Module Double.
Definition prec : Z := 53.
Definition emax : Z := 1024.

Definition t := spec_float.

Definition lt (a b : t) : bool := SFltb a b.
Definition gt (a b : t) : bool := SFltb b a.
Definition le (a b : t) : bool := SFleb a b.
Definition eqb (a b : t) : bool := SFeqb a b.
(** [a != b] of C++: true as soon as one side is a NaN. *)
Definition ne (a b : t) : bool := negb (SFeqb a b).
Definition sub (a b : t) : t := SFsub prec emax a b.
Definition div (a b : t) : t := SFdiv prec emax a b.

Definition isnan (a : t) : bool :=
  match a with S754_nan => true | _ => false end.
Definition isinf (a : t) : bool :=
  match a with S754_infinity _ => true | _ => false end.
Definition isfinite (a : t) : bool :=
  match a with S754_zero _ | S754_finite _ _ _ => true | _ => false end.

Definition zero : t := S754_zero false.
Definition of_Z (z : Z) : t := binary_normalize prec emax z 0 false.
(** [dec n d] is the double nearest to [n / d]; a decimal literal such as
    [100.50] denotes [dec 10050 100]. *)
Definition dec (n d : Z) : t := div (of_Z n) (of_Z d).
(** [std::numeric_limits<double>::max()] *)
Definition max : t := SFmax_float prec emax.
End Double.

Definition Price := Double.t.

(** ** Constants of order_book.cpp *)

Definition MEMORY_POOL_BLOCK_SIZE : nat := 1024.
Definition MAX_ORDER_QUANTITY : Z := 1000000.
Definition MIN_PRICE : Price := Double.dec 1 100.
Definition MAX_PRICE : Price := Double.of_Z 1000000.

(** ** struct Order *)

Module Order.
Record t := mk {
  order_id : Z;
  is_buy : bool;
  price : Price;
  quantity : Z;
  timestamp_ns : Z;
  next : option nat;
  prev : option nat;
  is_active : bool
}.

(** A slot of a fresh slab: [std::make_unique<T[]>] value-initialises. *)
Definition zero : t := mk 0 false Double.zero 0 0 None None true.

Definition set_price (p : Price) (o : t) : t :=
  mk (order_id o) (is_buy o) p (quantity o) (timestamp_ns o) (next o) (prev o) (is_active o).
Definition set_quantity (q : Z) (o : t) : t :=
  mk (order_id o) (is_buy o) (price o) q (timestamp_ns o) (next o) (prev o) (is_active o).
Definition set_next (n : option nat) (o : t) : t :=
  mk (order_id o) (is_buy o) (price o) (quantity o) (timestamp_ns o) n (prev o) (is_active o).
Definition set_prev (p : option nat) (o : t) : t :=
  mk (order_id o) (is_buy o) (price o) (quantity o) (timestamp_ns o) (next o) p (is_active o).
Definition set_is_active (b : bool) (o : t) : t :=
  mk (order_id o) (is_buy o) (price o) (quantity o) (timestamp_ns o) (next o) (prev o) b.

(** [Order(id, buy, p, qty, ts)]: the five-argument constructor. *)
Definition make (id : Z) (buy : bool) (p : Price) (qty ts : Z) : t :=
  mk id buy p qty ts None None true.
End Order.

(** ** SimpleMemoryPool<T> *)

Module SimpleMemoryPool.
Definition BLOCK_SIZE : nat := MEMORY_POOL_BLOCK_SIZE.

(** [blocks_] holds what was written to the slots of the slabs, by
    address: the slot [position] of block [b] has address
    [b * BLOCK_SIZE + position]; [blocks_size] is [blocks_.size()].
    [free_list_head_] is the chain of released slots, most recent first.
    The source threads that chain through the first word of the released
    records (the [order_id] of an order, the [price] of a level); here the
    chain is kept beside the records and that overlay is left out.
    [add_order] and [get_or_create_level] rewrite a recycled record in
    full. *)
Record t (T : Type) := mk {
  blocks_ : gmap nat T;
  blocks_size : nat;
  current_block_index_ : nat;
  current_position_ : nat;
  free_list_head_ : list nat
}.
Arguments mk {T}.
Arguments blocks_ {T}.
Arguments blocks_size {T}.
Arguments current_block_index_ {T}.
Arguments current_position_ {T}.
Arguments free_list_head_ {T}.

Section Pool.
Context {T : Type}.

Definition allocate_new_block (p : t T) : t T :=
  mk (blocks_ p) (S (blocks_size p)) (blocks_size p) 0%nat (free_list_head_ p).

(** The constructor. *)
Definition create : t T :=
  allocate_new_block (mk ∅ 0%nat 0%nat 0%nat []).

Definition pop_free_list (p : t T) : option nat * t T :=
  match free_list_head_ p with
  | head :: rest =>
      (Some head,
       mk (blocks_ p) (blocks_size p) (current_block_index_ p) (current_position_ p) rest)
  | [] => (None, p)
  end.

Definition push_free_list (ptr : nat) (p : t T) : t T :=
  mk (blocks_ p) (blocks_size p) (current_block_index_ p) (current_position_ p)
     (ptr :: free_list_head_ p).

Definition allocate (p : t T) : nat * t T :=
  match pop_free_list p with
  | (Some ptr, p') => (ptr, p')
  | (None, _) =>
      let p1 :=
        if (BLOCK_SIZE <=? current_position_ p)%nat then allocate_new_block p else p in
      ((current_block_index_ p1 * BLOCK_SIZE + current_position_ p1)%nat,
       mk (blocks_ p1) (blocks_size p1) (current_block_index_ p1)
          (S (current_position_ p1)) (free_list_head_ p1))
  end.

Definition deallocate (ptr : nat) (p : t T) : t T := push_free_list ptr p.

(** [*ptr] and [*ptr = v] *)
Definition load (d : T) (ptr : nat) (p : t T) : T := default d (blocks_ p !! ptr).
Definition store (ptr : nat) (v : T) (p : t T) : t T :=
  mk (<[ptr := v]> (blocks_ p)) (blocks_size p) (current_block_index_ p)
     (current_position_ p) (free_list_head_ p).
End Pool.
End SimpleMemoryPool.

Abbreviation pool := SimpleMemoryPool.t.

(** Reading and updating an order through a pointer. *)
Definition ord (P : pool Order.t) (ptr : nat) : Order.t :=
  SimpleMemoryPool.load Order.zero ptr P.
Definition upd (ptr : nat) (f : Order.t -> Order.t) (P : pool Order.t) : pool Order.t :=
  SimpleMemoryPool.store ptr (f (ord P ptr)) P.

(** ** struct InternalPriceLevel *)

Module InternalPriceLevel.
Record t := mk {
  price : Price;
  total_quantity : Z;
  first_order : option nat;
  last_order : option nat;
  order_count : Z;
  is_active : bool
}.

(** [InternalPriceLevel()] and [InternalPriceLevel(double p)] *)
Definition zero : t := mk Double.zero 0 None None 0 true.
Definition make (p : Price) : t := mk p 0 None None 0 true.

Definition set_first (f : option nat) (l : t) : t :=
  mk (price l) (total_quantity l) f (last_order l) (order_count l) (is_active l).
Definition set_last (x : option nat) (l : t) : t :=
  mk (price l) (total_quantity l) (first_order l) x (order_count l) (is_active l).
Definition set_total (q : Z) (l : t) : t :=
  mk (price l) q (first_order l) (last_order l) (order_count l) (is_active l).
Definition set_count (c : Z) (l : t) : t :=
  mk (price l) (total_quantity l) (first_order l) (last_order l) c (is_active l).

(** [void add_order(Order* order)]: the level is [this], the orders are
    reached through the order pool [P]. *)
Definition add_order (order : nat) (l : t) (P : pool Order.t) : t * pool Order.t :=
  let '(l1, P1) :=
    match first_order l with
    | None => (set_last (Some order) (set_first (Some order) l), P)
    | Some _ =>
        let P1 := upd order (Order.set_prev (last_order l)) P in
        let P2 :=
          match last_order l with
          | Some lo => upd lo (Order.set_next (Some order)) P1
          | None => P1
          end in
        (set_last (Some order) l, P2)
    end in
  (set_count (wrap64 (order_count l1 + 1))
     (set_total (wrap64 (total_quantity l1 + Order.quantity (ord P1 order))) l1),
   P1).

(** [void remove_order(Order* order)] *)
Definition remove_order (order : nat) (l : t) (P : pool Order.t) : t * pool Order.t :=
  if negb (Order.is_active (ord P order)) then (l, P)
  else
    let P1 := upd order (Order.set_is_active false) P in
    let prev := Order.prev (ord P1 order) in
    let next := Order.next (ord P1 order) in
    let '(l2, P2) :=
      match prev with
      | Some p => (l, upd p (Order.set_next next) P1)
      | None => (set_first next l, P1)
      end in
    let '(l3, P3) :=
      match next with
      | Some n => (l2, upd n (Order.set_prev prev) P2)
      | None => (set_last prev l2, P2)
      end in
    (set_count (wrap64 (order_count l3 - 1))
       (set_total (wrap64 (total_quantity l3 - Order.quantity (ord P3 order))) l3),
     P3).

Definition is_empty (l : t) : bool := order_count l =? 0.
End InternalPriceLevel.

Definition lvl (L : pool InternalPriceLevel.t) (ptr : nat) : InternalPriceLevel.t :=
  SimpleMemoryPool.load InternalPriceLevel.zero ptr L.

(** ** std::map<Price, InternalPriceLevel*, Compare> *)

Module PriceMap.
Definition t := list (Price * nat).

Section Ordered.
(** [comp a b]: the key [a] goes before the key [b]. *)
Variable comp : Price -> Price -> bool.

(** [find]: the first entry that is not before [k], when [k] is not
    before it either. *)
Fixpoint find (k : Price) (m : t) : option nat :=
  match m with
  | [] => None
  | (k', v) :: rest =>
      if comp k' k then find k rest
      else if comp k k' then None
      else Some v
  end.

(** [m[k] = v] *)
Fixpoint assign (k : Price) (v : nat) (m : t) : t :=
  match m with
  | [] => [(k, v)]
  | (k', v') :: rest =>
      if comp k' k then (k', v') :: assign k v rest
      else if comp k k' then (k, v) :: m
      else (k', v) :: rest
  end.

(** [m.erase(m.find(k))] when the key is present *)
Fixpoint erase (k : Price) (m : t) : t :=
  match m with
  | [] => []
  | (k', v') :: rest =>
      if comp k' k then (k', v') :: erase k rest
      else if comp k k' then m
      else rest
  end.
End Ordered.

(** [m.erase(m.begin())] *)
Definition erase_begin (m : t) : t := tail m.
End PriceMap.

(** ** What the book prints *)

Inductive Diagnostic :=
  | InvalidOrderId
  | InvalidPrice (p : Price)
  | InvalidQuantity (q : Z)
  | DuplicateOrderId (id : Z)
  | OrderNotFound (id : Z)
  | OrderNotActive (id : Z)
  | LevelNotFound (id : Z).

(** [MATCH: quantity @ price (Bid: id, Ask: id)] *)
Record Trade := mkTrade {
  match_quantity : Z;
  match_price : Price;
  bid_id : Z;
  ask_id : Z
}.

Inductive Event :=
  | Match (t : Trade)
  | Error (d : Diagnostic).

(** ** class OrderBook::Impl *)

Module Impl.
Record t := mk {
  bids_ : PriceMap.t;
  asks_ : PriceMap.t;
  order_lookup_ : gmap Z nat;
  order_pool_ : pool Order.t;
  level_pool_ : pool InternalPriceLevel.t;
  matching_in_progress_ : bool;
  version_ : Z
}.

Definition set_bids (b : PriceMap.t) (s : t) : t :=
  mk b (asks_ s) (order_lookup_ s) (order_pool_ s) (level_pool_ s)
     (matching_in_progress_ s) (version_ s).
Definition set_asks (a : PriceMap.t) (s : t) : t :=
  mk (bids_ s) a (order_lookup_ s) (order_pool_ s) (level_pool_ s)
     (matching_in_progress_ s) (version_ s).
Definition set_lookup (m : gmap Z nat) (s : t) : t :=
  mk (bids_ s) (asks_ s) m (order_pool_ s) (level_pool_ s)
     (matching_in_progress_ s) (version_ s).
Definition set_order_pool (P : pool Order.t) (s : t) : t :=
  mk (bids_ s) (asks_ s) (order_lookup_ s) P (level_pool_ s)
     (matching_in_progress_ s) (version_ s).
Definition set_level_pool (L : pool InternalPriceLevel.t) (s : t) : t :=
  mk (bids_ s) (asks_ s) (order_lookup_ s) (order_pool_ s) L
     (matching_in_progress_ s) (version_ s).
Definition set_matching (b : bool) (s : t) : t :=
  mk (bids_ s) (asks_ s) (order_lookup_ s) (order_pool_ s) (level_pool_ s)
     b (version_ s).
Definition set_version (v : Z) (s : t) : t :=
  mk (bids_ s) (asks_ s) (order_lookup_ s) (order_pool_ s) (level_pool_ s)
     (matching_in_progress_ s) v.

(** The book of a fresh [OrderBook]. *)
Definition create : t :=
  mk [] [] ∅ SimpleMemoryPool.create SimpleMemoryPool.create false 0.

(** [*order] and [*level] *)
Definition order (s : t) (ptr : nat) : Order.t := ord (order_pool_ s) ptr.
Definition level (s : t) (ptr : nat) : InternalPriceLevel.t := lvl (level_pool_ s) ptr.

(** [order->field = v] *)
Definition set_order (ptr : nat) (f : Order.t -> Order.t) (s : t) : t :=
  set_order_pool (upd ptr f (order_pool_ s)) s.
(** [level->field = v] *)
Definition set_level (ptr : nat) (f : InternalPriceLevel.t -> InternalPriceLevel.t) (s : t) : t :=
  set_level_pool (SimpleMemoryPool.store ptr (f (level s ptr)) (level_pool_ s)) s.

(** [level->add_order(order)] and [level->remove_order(order)] *)
Definition level_add_order (lp op : nat) (s : t) : t :=
  let '(l', P') := InternalPriceLevel.add_order op (level s lp) (order_pool_ s) in
  set_order_pool P' (set_level_pool (SimpleMemoryPool.store lp l' (level_pool_ s)) s).
Definition level_remove_order (lp op : nat) (s : t) : t :=
  let '(l', P') := InternalPriceLevel.remove_order op (level s lp) (order_pool_ s) in
  set_order_pool P' (set_level_pool (SimpleMemoryPool.store lp l' (level_pool_ s)) s).

(** Bids are ordered by [std::greater], asks by [std::less]. *)
Definition side_comp (is_buy : bool) : Price -> Price -> bool :=
  if is_buy then Double.gt else Double.lt.
Definition side (is_buy : bool) (s : t) : PriceMap.t :=
  if is_buy then bids_ s else asks_ s.
Definition set_side (is_buy : bool) (m : PriceMap.t) (s : t) : t :=
  if is_buy then set_bids m s else set_asks m s.

Definition get_or_create_level (price : Price) (is_buy : bool) (s : t) : nat * t :=
  match PriceMap.find (side_comp is_buy) price (side is_buy s) with
  | Some lp => (lp, s)
  | None =>
      let '(lp, L) := SimpleMemoryPool.allocate (level_pool_ s) in
      let L1 := SimpleMemoryPool.store lp (InternalPriceLevel.make price) L in
      let s1 := set_level_pool L1 s in
      (lp, set_side is_buy (PriceMap.assign (side_comp is_buy) price lp (side is_buy s1)) s1)
  end.

Definition get_level (price : Price) (is_buy : bool) (s : t) : option nat :=
  PriceMap.find (side_comp is_buy) price (side is_buy s).

Definition remove_price_level (price : Price) (is_buy : bool) (s : t) : t :=
  match PriceMap.find (side_comp is_buy) price (side is_buy s) with
  | Some lp =>
      let s1 := set_level_pool (SimpleMemoryPool.deallocate lp (level_pool_ s)) s in
      set_side is_buy (PriceMap.erase (side_comp is_buy) price (side is_buy s1)) s1
  | None => s
  end.

(** [remove_filled_order(order, level, map_it, is_buy)]; [map_it] is the
    first entry of its side at the only call site. *)
Definition remove_filled_order (op lp : nat) (is_buy : bool) (s : t) : bool * t :=
  if Order.quantity (order s op) =? 0 then
    let s1 := level_remove_order lp op s in
    let s2 := set_lookup (delete (Order.order_id (order s1 op)) (order_lookup_ s1)) s1 in
    let s3 := set_order_pool (SimpleMemoryPool.deallocate op (order_pool_ s2)) s2 in
    if InternalPriceLevel.is_empty (level s3 lp) then
      let s4 := set_side is_buy (PriceMap.erase_begin (side is_buy s3)) s3 in
      (true, set_level_pool (SimpleMemoryPool.deallocate lp (level_pool_ s4)) s4)
    else (false, s3)
  else (false, s).

(** One turn of the [while] loop of [match_orders]: [None] when the loop
    is left (a side is empty, the book is not crossed, or a guard
    breaks), otherwise the trade printed and the book after the turn. *)
Definition match_step (s : t) : option (Trade * t) :=
  match bids_ s, asks_ s with
  | (best_bid, bid_level) :: _, (best_ask, ask_level) :: _ =>
      if Double.lt best_bid best_ask then None
      else if negb (InternalPriceLevel.is_active (level s bid_level))
              || negb (InternalPriceLevel.is_active (level s ask_level)) then None
      else
        match InternalPriceLevel.first_order (level s bid_level),
              InternalPriceLevel.first_order (level s ask_level) with
        | Some bid_order, Some ask_order =>
            if negb (Order.is_active (order s bid_order))
               || negb (Order.is_active (order s ask_order)) then None
            else
              let bid_qty := Order.quantity (order s bid_order) in
              let ask_qty := Order.quantity (order s ask_order) in
              let match_quantity := Z.min bid_qty ask_qty in
              let match_price :=
                if Order.timestamp_ns (order s bid_order)
                   <=? Order.timestamp_ns (order s ask_order)
                then Order.price (order s bid_order)
                else Order.price (order s ask_order) in
              let tr := mkTrade match_quantity match_price
                          (Order.order_id (order s bid_order))
                          (Order.order_id (order s ask_order)) in
              let s1 := set_order bid_order
                          (fun o => Order.set_quantity (wrap64 (Order.quantity o - match_quantity)) o) s in
              let s2 := set_order ask_order
                          (fun o => Order.set_quantity (wrap64 (Order.quantity o - match_quantity)) o) s1 in
              let '(bid_removed, s3) := remove_filled_order bid_order bid_level true s2 in
              let '(ask_removed, s4) := remove_filled_order ask_order ask_level false s3 in
              Some (tr, s4)
        | _, _ => None
        end
  | _, _ => None
  end.

(** The [while] loop; [fuel] bounds the number of turns, [None] when it
    is exhausted before the loop is left. *)
Fixpoint match_loop (fuel : nat) (s : t) : option (list Trade * t) :=
  match match_step s with
  | None => Some ([], s)
  | Some (tr, s') =>
      match fuel with
      | O => None
      | S fuel' =>
          match match_loop fuel' s' with
          | Some (trs, s'') => Some (tr :: trs, s'')
          | None => None
          end
      end
  end.

Definition match_orders (fuel : nat) (s : t) : option (list Trade * t) :=
  if matching_in_progress_ s then Some ([], s)
  else
    match match_loop fuel (set_matching true s) with
    | Some (trs, s') => Some (trs, set_matching false s')
    | None => None
    end.
End Impl.

(** ** class OrderBook: the public operations, on the state behind [pImpl] *)

Module OrderBook.
Import Impl.

(** The price test shared by [add_order] and [amend_order]. *)
Definition price_rejected (p : Price) : bool :=
  Double.lt p MIN_PRICE || Double.gt p MAX_PRICE || Double.isnan p || Double.isinf p.

Definition quantity_rejected (q : Z) : bool :=
  (q =? 0) || (MAX_ORDER_QUANTITY <? q).

(** The body of [add_order] once the order has passed the checks, up to
    the call of [match_orders]: the slot taken from the pool and the book
    with the order registered and queued.  The two allocation-failure
    branches of the source cannot be taken: [allocate] and
    [get_or_create_level] never return a null pointer. *)
Definition insert_order (o : Order.t) (s : t) : nat * t :=
  let '(new_order, P) := SimpleMemoryPool.allocate (order_pool_ s) in
  let P1 :=
    SimpleMemoryPool.store new_order
      (Order.mk (Order.order_id o) (Order.is_buy o) (Order.price o)
         (Order.quantity o) (Order.timestamp_ns o) None None true) P in
  let s1 := set_lookup (<[Order.order_id o := new_order]> (order_lookup_ s))
              (set_order_pool P1 s) in
  let '(lp, s2) := get_or_create_level (Order.price o) (Order.is_buy o) s1 in
  let s3 := level_add_order lp new_order s2 in
  (new_order, set_version (wrap64 (version_ s3 + 1)) s3).

(** [void add_order(const Order& o)] *)
Definition add_order (fuel : nat) (o : Order.t) (s : t) : option (list Event * t) :=
  if Order.order_id o =? 0 then Some ([Error InvalidOrderId], s)
  else if price_rejected (Order.price o) then Some ([Error (InvalidPrice (Order.price o))], s)
  else if quantity_rejected (Order.quantity o) then
    Some ([Error (InvalidQuantity (Order.quantity o))], s)
  else
    match order_lookup_ s !! Order.order_id o with
    | Some _ => Some ([Error (DuplicateOrderId (Order.order_id o))], s)
    | None =>
        match match_orders fuel (snd (insert_order o s)) with
        | Some (trs, s') => Some (map Match trs, s')
        | None => None
        end
    end.

(** [bool cancel_order(uint64_t id)] *)
Definition cancel_order (id : Z) (s : t) : bool * list Event * t :=
  if id =? 0 then (false, [Error InvalidOrderId], s)
  else
    match order_lookup_ s !! id with
    | None => (false, [Error (OrderNotFound id)], s)
    | Some op =>
        let s1 := set_lookup (delete id (order_lookup_ s)) s in
        if negb (Order.is_active (order s1 op)) then
          (false, [], set_order_pool (SimpleMemoryPool.deallocate op (order_pool_ s1)) s1)
        else
          let s2 :=
            match get_level (Order.price (order s1 op)) (Order.is_buy (order s1 op)) s1 with
            | Some lp =>
                let s' := level_remove_order lp op s1 in
                if InternalPriceLevel.is_empty (level s' lp) then
                  remove_price_level (InternalPriceLevel.price (level s' lp))
                    (Order.is_buy (order s' op)) s'
                else s'
            | None => s1
            end in
          let s3 := set_order_pool (SimpleMemoryPool.deallocate op (order_pool_ s2)) s2 in
          (true, [], set_version (wrap64 (version_ s3 + 1)) s3)
    end.

(** [bool amend_order(uint64_t order_id, double new_price, uint64_t new_quantity)] *)
Definition amend_order (order_id : Z) (new_price : Price) (new_quantity : Z) (s : t)
  : bool * list Event * t :=
  if order_id =? 0 then (false, [Error InvalidOrderId], s)
  else if price_rejected new_price then (false, [Error (InvalidPrice new_price)], s)
  else if quantity_rejected new_quantity then (false, [Error (InvalidQuantity new_quantity)], s)
  else
    match order_lookup_ s !! order_id with
    | None => (false, [Error (OrderNotFound order_id)], s)
    | Some op =>
        if negb (Order.is_active (order s op)) then
          (false, [Error (OrderNotActive order_id)], s)
        else if Double.ne (Order.price (order s op)) new_price then
          (* Price change - treat as cancel + add *)
          let s1 :=
            match get_level (Order.price (order s op)) (Order.is_buy (order s op)) s with
            | Some old_level =>
                let s' := level_remove_order old_level op s in
                if InternalPriceLevel.is_empty (level s' old_level) then
                  remove_price_level (InternalPriceLevel.price (level s' old_level))
                    (Order.is_buy (order s' op)) s'
                else s'
            | None => s
            end in
          let s2 := set_order op (Order.set_price new_price) s1 in
          let s3 := set_order op (Order.set_quantity new_quantity) s2 in
          let '(new_level, s4) := get_or_create_level new_price (Order.is_buy (order s3 op)) s3 in
          let s5 := level_add_order new_level op s4 in
          (true, [], set_version (wrap64 (version_ s5 + 1)) s5)
        else
          (* Only quantity change - update in place *)
          match get_level (Order.price (order s op)) (Order.is_buy (order s op)) s with
          | Some lp =>
              let s1 :=
                set_level lp
                  (fun l => InternalPriceLevel.set_total
                              (wrap64 (wrap64 (InternalPriceLevel.total_quantity l
                                               - Order.quantity (order s op))
                                       + new_quantity)) l) s in
              let s2 := set_order op (Order.set_quantity new_quantity) s1 in
              (true, [], set_version (wrap64 (version_ s2 + 1)) s2)
          | None => (false, [Error (LevelNotFound order_id)], s)
          end
    end.

(** [get_snapshot]: the first [depth] levels of each side, as
    [(price, total_quantity)]. *)
Definition snapshot_side (depth : nat) (m : PriceMap.t) (s : t) : list (Price * Z) :=
  map (fun e => (InternalPriceLevel.price (level s (snd e)),
                 InternalPriceLevel.total_quantity (level s (snd e))))
      (take depth m).
Definition get_snapshot (depth : nat) (s : t) : list (Price * Z) * list (Price * Z) :=
  (snapshot_side depth (bids_ s) s, snapshot_side depth (asks_ s) s).

Definition get_best_bid (s : t) : Price :=
  match bids_ s with
  | [] => Double.zero
  | (_, lp) :: _ => InternalPriceLevel.price (level s lp)
  end.

Definition get_best_ask (s : t) : Price :=
  match asks_ s with
  | [] => Double.max
  | (_, lp) :: _ => InternalPriceLevel.price (level s lp)
  end.

Definition get_spread (s : t) : Price :=
  let best_ask_price := get_best_ask s in
  if Double.eqb best_ask_price Double.max then Double.zero
  else Double.sub best_ask_price (get_best_bid s).

Definition get_version (s : t) : Z := version_ s.
Definition get_order_count (s : t) : nat := size (order_lookup_ s).
Definition get_bid_levels (s : t) : nat := length (bids_ s).
Definition get_ask_levels (s : t) : nat := length (asks_ s).
End OrderBook.

(** ** Sequences of calls, as the driver issues them *)

Inductive Op :=
  | Add (o : Order.t)
  | Cancel (id : Z)
  | Amend (id : Z) (new_price : Price) (new_quantity : Z).

(** What one call returns and prints: [returned] is the [bool] of
    [cancel_order] and [amend_order], and [true] for the [void] of
    [add_order]. *)
Record Outcome := mkOutcome {
  returned : bool;
  printed : list Event
}.

Definition exec (fuel : nat) (op : Op) (s : Impl.t) : option (Outcome * Impl.t) :=
  match op with
  | Add o =>
      match OrderBook.add_order fuel o s with
      | Some (evs, s') => Some (mkOutcome true evs, s')
      | None => None
      end
  | Cancel id =>
      let '(b, evs, s') := OrderBook.cancel_order id s in Some (mkOutcome b evs, s')
  | Amend id p q =>
      let '(b, evs, s') := OrderBook.amend_order id p q s in Some (mkOutcome b evs, s')
  end.

Fixpoint run (fuel : nat) (ops : list Op) (s : Impl.t) : option (list Outcome * Impl.t) :=
  match ops with
  | [] => Some ([], s)
  | op :: rest =>
      match exec fuel op s with
      | Some (out, s1) =>
          match run fuel rest s1 with
          | Some (outs, s2) => Some (out :: outs, s2)
          | None => None
          end
      | None => None
      end
  end.

(** ** Notions the properties are stated with *)

(** The queue of a level as the links describe it: the orders met from
    [first_order] along [next]; [fuel] bounds the walk. *)
Fixpoint chain (fuel : nat) (P : pool Order.t) (p : option nat) : list nat :=
  match fuel, p with
  | S fuel', Some a => a :: chain fuel' P (Order.next (ord P a))
  | _, _ => []
  end.

Definition members (s : Impl.t) (lp : nat) : list nat :=
  chain (size (SimpleMemoryPool.blocks_ (Impl.order_pool_ s))) (Impl.order_pool_ s)
        (InternalPriceLevel.first_order (Impl.level s lp)).

(** Sum of the remaining quantities of the members of a level. *)
Definition members_quantity (s : Impl.t) (lp : nat) : Z :=
  fold_right Z.add 0 (map (fun a => Order.quantity (Impl.order s a)) (members s lp)).

(** The same sum over the members whose liveness flag is set. *)
Definition live_quantity (s : Impl.t) (lp : nat) : Z :=
  fold_right Z.add 0
    (map (fun a => Order.quantity (Impl.order s a))
         (filter (fun a => Order.is_active (Impl.order s a) = true) (members s lp))).

(** Invariant 1 of the data model, for one level and for the book. *)
Definition level_aggregate_ok (s : Impl.t) (lp : nat) : bool :=
  InternalPriceLevel.total_quantity (Impl.level s lp) =? live_quantity s lp.

Definition aggregates_ok (s : Impl.t) : bool :=
  forallb (fun e => level_aggregate_ok s (snd e)) (Impl.bids_ s ++ Impl.asks_ s).

(** The book is crossed: both sides have a level and the best bid is not
    below the best ask. *)
Definition crossed (s : Impl.t) : bool :=
  match Impl.bids_ s, Impl.asks_ s with
  | (best_bid, _) :: _, (best_ask, _) :: _ => negb (Double.lt best_bid best_ask)
  | _, _ => false
  end.

(** The head orders the matching loop looks at. *)
Definition head_of (m : PriceMap.t) (s : Impl.t) : option nat :=
  match m with
  | (_, lp) :: _ => InternalPriceLevel.first_order (Impl.level s lp)
  | [] => None
  end.
Definition best_bid_head (s : Impl.t) : option nat := head_of (Impl.bids_ s) s.
Definition best_ask_head (s : Impl.t) : option nat := head_of (Impl.asks_ s) s.

(** Both best levels are flagged active and have a live head: no guard of
    the matching loop fires. *)
Definition heads_live (s : Impl.t) : bool :=
  match Impl.bids_ s, Impl.asks_ s with
  | (_, bl) :: _, (_, al) :: _ =>
      InternalPriceLevel.is_active (Impl.level s bl)
      && InternalPriceLevel.is_active (Impl.level s al)
      && match best_bid_head s, best_ask_head s with
         | Some bo, Some ao =>
             Order.is_active (Impl.order s bo) && Order.is_active (Impl.order s ao)
         | _, _ => false
         end
  | _, _ => false
  end.

(** The order registered under an id, if any. *)
Definition resting (s : Impl.t) (id : Z) : option Order.t :=
  Impl.order s <$> Impl.order_lookup_ s !! id.

(** The conditions under which [add_order] takes an order, with the price
    bounds both included. *)
Definition acceptable (o : Order.t) (s : Impl.t) : Prop :=
  Order.order_id o ≠ 0
  ∧ Impl.order_lookup_ s !! Order.order_id o = None
  ∧ Double.isfinite (Order.price o) = true
  ∧ Double.le MIN_PRICE (Order.price o) = true
  ∧ Double.le (Order.price o) MAX_PRICE = true
  ∧ 1 <= Order.quantity o <= MAX_ORDER_QUANTITY.

(** [add_order] turned the order down: one diagnostic, the book as it was. *)
Definition rejected (fuel : nat) (o : Order.t) (s : Impl.t) : Prop :=
  ∃ d, OrderBook.add_order fuel o s = Some ([Error d], s).

Definition is_match (e : Event) : bool :=
  match e with Match _ => true | Error _ => false end.

(** The call registers the id: an [add_order] of an order carrying it. *)
Definition adds (id : Z) (op : Op) : bool :=
  match op with
  | Add o => Order.order_id o =? id
  | _ => false
  end.

(** The id is not in the order lookup. *)
Definition unknown (id : Z) (s : Impl.t) : Prop := Impl.order_lookup_ s !! id = None.

(** Prices of the scenarios, written in hundredths. *)
Definition cents (n : Z) : Price := Double.dec n 100.

(** ** Scenarios *)

(** The calls of a scenario are run on a fresh book; sixteen turns of the
    matching loop are more than any of them needs. *)
Definition outcomes_of (ops : list Op) : option (list Outcome) :=
  fst <$> run 16 ops Impl.create.
Definition book_of (ops : list Op) : Impl.t :=
  match run 16 ops Impl.create with
  | Some (_, s) => s
  | None => Impl.create
  end.

Definition quiet : Outcome := mkOutcome true [].

(** Scenario 2 of the testable properties ([test_matching] of main.cpp):
    a resting sell at 101.00 is hit by a buy at 101.50. *)
Definition scenario_matching : list Op :=
  [ Add (Order.make 1 true (cents 10000) 500 1000);
    Add (Order.make 2 false (cents 10100) 300 1001);
    Add (Order.make 3 true (cents 10150) 200 1002) ].

(** Scenario 3 ([test_fifo_priority] of main.cpp). *)
Definition scenario_fifo : list Op :=
  [ Add (Order.make 1 true (cents 10000) 100 1000);
    Add (Order.make 2 true (cents 10000) 200 1001);
    Add (Order.make 3 true (cents 10000) 150 1002);
    Add (Order.make 4 false (cents 10000) 250 1003) ].

(** A resting sell is repriced below a bid that arrives next. *)
Definition scenario_repriced_ask : list Op :=
  [ Add (Order.make 2 false (cents 10200) 10 1000);
    Amend 2 (cents 9900) 10;
    Add (Order.make 3 true (cents 10000) 10 1001) ].

(** A buy is added and then repriced. *)
Definition scenario_repriced_bid : list Op :=
  [ Add (Order.make 1 true (cents 10000) 10 1000);
    Amend 1 (cents 10100) 10 ].

(** Two buys at 100.00; the second is repriced to 101.00 and cancelled; a
    third buy at 100.00 and then a sell at 100.00 arrive. *)
Definition scenario_recycled_slot : list Op :=
  [ Add (Order.make 1 true (cents 10000) 10 1);
    Add (Order.make 2 true (cents 10000) 10 2);
    Amend 2 (cents 10100) 10;
    Cancel 2;
    Add (Order.make 3 true (cents 10000) 10 3);
    Add (Order.make 4 false (cents 10000) 5 4) ].

(** A book with asks only. *)
Definition scenario_asks_only : list Op :=
  [ Add (Order.make 2 false (cents 10200) 10 1000) ].

(** A resting sell stamped later than the buy that hits it. *)
Definition scenario_late_stamp : list Op :=
  [ Add (Order.make 1 false (cents 10000) 10 2000);
    Add (Order.make 2 true (cents 10500) 10 1000) ].

(** A resting sell and the buy that hits it, stamped alike. *)
Definition scenario_same_stamp : list Op :=
  [ Add (Order.make 1 false (cents 10000) 10 1000);
    Add (Order.make 2 true (cents 10500) 10 1000) ].

(** An order priced at the lower bound. *)
Definition order_at_min_price : Order.t := Order.make 1 true MIN_PRICE 1 0.

(** Books on which the matching loop has a turn to take: a resting sell at
    100.00 and a buy at 105.00 just queued by [add_order], stamped at the
    same instant or later. *)
Definition resting_sell_book : Impl.t :=
  book_of [ Add (Order.make 1 false (cents 10000) 10 1000) ].
Definition tie_book : Impl.t :=
  snd (OrderBook.insert_order (Order.make 2 true (cents 10500) 10 1000) resting_sell_book).
Definition tie_trade : Trade := mkTrade 10 (cents 10500) 2 1.
Definition later_book : Impl.t :=
  snd (OrderBook.insert_order (Order.make 2 true (cents 10500) 10 1001) resting_sell_book).
Definition later_trade : Trade := mkTrade 10 (cents 10000) 2 1.
Definition after_step (s : Impl.t) : Impl.t :=
  match Impl.match_step s with
  | Some (_, s') => s'
  | None => s
  end.

(** As [scenario_recycled_slot] up to the failed cancel; the slot is then
    taken by a sell at 101.00, the price of the level that still points to
    it. *)
Definition scenario_aliased_heads : list Op :=
  [ Add (Order.make 1 true (cents 10000) 10 1);
    Add (Order.make 2 true (cents 10000) 10 2);
    Amend 2 (cents 10100) 10;
    Cancel 2 ].
Definition aliasing_sell : Order.t := Order.make 3 false (cents 10100) 10 3.
Definition aliased_book : Impl.t :=
  Impl.set_matching true
    (snd (OrderBook.insert_order aliasing_sell (book_of scenario_aliased_heads))).

(** A buy cancelled, an unrelated sell added and amended in between. *)
Definition scenario_after_cancel : list Op :=
  [ Add (Order.make 8 false (cents 10300) 40 1001);
    Amend 8 (cents 10300) 60 ].
Definition cancelled_book : Impl.t :=
  snd (OrderBook.cancel_order 7
         (book_of [ Add (Order.make 7 true (cents 10000) 10 1000) ])).
Definition later_cancel_book : Impl.t :=
  match run 16 scenario_after_cancel cancelled_book with
  | Some (_, s) => s
  | None => cancelled_book
  end.
Definition later_cancel_outcomes : list Outcome :=
  match run 16 scenario_after_cancel cancelled_book with
  | Some (outs, _) => outs
  | None => []
  end.

(** Scenarios are settled by running them. *)
Ltac by_running :=
  repeat match goal with |- _ ∧ _ => split end;
  vm_compute; reflexivity.

(** * Properties *)

(** ** Order of doubles *)

Section FloatOrder.
Lemma SFcompare_antisym (a b : spec_float) :
  SFcompare b a = option_map CompOpp (SFcompare a b).
Proof.
  destruct a as [sa|sa| |sa ma ea], b as [sb|sb| |sb mb eb]; simpl;
    try destruct sa; try destruct sb; try reflexivity.
  all: rewrite (Z.compare_antisym ea eb);
    destruct (ea ?= eb); simpl; try reflexivity;
    rewrite (Pos.compare_cont_antisym ma mb Eq); simpl;
    destruct (Pos.compare_cont Eq ma mb); reflexivity.
Qed.

Lemma lt_iff_not_le (a b : Double.t) :
  Double.isnan a = false → Double.isnan b = false →
  Double.lt a b = negb (Double.le b a).
Proof.
  unfold Double.lt, Double.le, SFltb, SFleb. intros Ha Hb.
  rewrite (SFcompare_antisym a b).
  destruct (SFcompare a b) as [[]|] eqn:E; simpl; try reflexivity.
  destruct a, b; simpl in *; discriminate.
Qed.

(** The price test of [add_order] and [amend_order] lets through the
    finite prices of the closed interval, both bounds included. *)
Lemma price_rejected_spec (p : Price) :
  OrderBook.price_rejected p = false ↔
  Double.isfinite p = true ∧ Double.le MIN_PRICE p = true ∧ Double.le p MAX_PRICE = true.
Proof.
  unfold OrderBook.price_rejected, Double.gt.
  destruct (Double.isnan p) eqn:Hn.
  { destruct p; try discriminate Hn. rewrite !orb_true_r. simpl. intuition discriminate. }
  change (SFltb MAX_PRICE p) with (Double.lt MAX_PRICE p).
  rewrite (lt_iff_not_le p MIN_PRICE Hn eq_refl), (lt_iff_not_le MAX_PRICE p eq_refl Hn).
  destruct (Double.le MIN_PRICE p), (Double.le p MAX_PRICE); simpl;
    destruct p; simpl in *; try discriminate; intuition discriminate.
Qed.
End FloatOrder.

(** ** What the operations leave alone *)

Section Frames.
Import Impl.

Lemma lookup_level_remove_order lp op s :
  order_lookup_ (level_remove_order lp op s) = order_lookup_ s.
Proof.
  unfold level_remove_order.
  destruct (InternalPriceLevel.remove_order op (level s lp) (order_pool_ s)); reflexivity.
Qed.

Lemma lookup_remove_price_level p b s :
  order_lookup_ (remove_price_level p b s) = order_lookup_ s.
Proof.
  unfold remove_price_level.
  destruct (PriceMap.find _ _ _); [|reflexivity].
  destruct b; reflexivity.
Qed.

Lemma version_level_remove_order lp op s :
  version_ (level_remove_order lp op s) = version_ s.
Proof.
  unfold level_remove_order.
  destruct (InternalPriceLevel.remove_order op (level s lp) (order_pool_ s)); reflexivity.
Qed.

Lemma version_remove_filled_order op lp b s :
  version_ (snd (remove_filled_order op lp b s)) = version_ s.
Proof.
  unfold remove_filled_order.
  destruct (Order.quantity (order s op) =? 0); [|reflexivity].
  destruct (InternalPriceLevel.is_empty _); simpl.
  - destruct b; simpl; apply version_level_remove_order.
  - apply version_level_remove_order.
Qed.

Lemma version_match_step s tr s' :
  match_step s = Some (tr, s') → version_ s' = version_ s.
Proof.
  unfold match_step.
  destruct (bids_ s) as [|[bp bl] ?]; [discriminate|].
  destruct (asks_ s) as [|[ap al] ?]; [discriminate|].
  destruct (Double.lt bp ap); [discriminate|].
  destruct (negb _ || negb _); [discriminate|].
  destruct (InternalPriceLevel.first_order (level s bl)) as [bo|]; [|discriminate].
  destruct (InternalPriceLevel.first_order (level s al)) as [ao|]; [|discriminate].
  destruct (negb _ || negb _); [discriminate|].
  match goal with |- context [remove_filled_order bo bl true ?x] =>
    pose proof (version_remove_filled_order bo bl true x) as Hb;
    destruct (remove_filled_order bo bl true x) as [br s3] end.
  pose proof (version_remove_filled_order ao al false s3) as Ha.
  destruct (remove_filled_order ao al false s3) as [ar s4].
  intros [= _ <-]. simpl in *. congruence.
Qed.

Lemma version_match_loop fuel : ∀ s trs s',
  match_loop fuel s = Some (trs, s') → version_ s' = version_ s.
Proof.
  induction fuel as [|fuel IH]; intros s trs s'; simpl.
  - destruct (match_step s) as [[tr s1]|]; [discriminate|]. intros [= _ <-]. reflexivity.
  - destruct (match_step s) as [[tr s1]|] eqn:Hs; [|intros [= _ <-]; reflexivity].
    destruct (match_loop fuel s1) as [[trs1 s2]|] eqn:Hl; [|discriminate].
    intros [= _ <-]. rewrite (IH _ _ _ Hl). eapply version_match_step; eauto.
Qed.

Lemma version_match_orders fuel s trs s' :
  match_orders fuel s = Some (trs, s') → version_ s' = version_ s.
Proof.
  unfold match_orders. destruct (matching_in_progress_ s).
  - intros [= _ <-]. reflexivity.
  - destruct (match_loop fuel (set_matching true s)) as [[trs1 s1]|] eqn:Hl; [|discriminate].
    intros [= _ <-]. simpl. apply (version_match_loop _ _ _ _ Hl).
Qed.

Lemma version_insert_order o s :
  version_ (snd (OrderBook.insert_order o s)) = wrap64 (version_ s + 1).
Proof.
  unfold OrderBook.insert_order.
  destruct (SimpleMemoryPool.allocate (order_pool_ s)) as [new_order P].
  match goal with |- context [get_or_create_level ?p ?b ?x] =>
    assert (Hv : version_ (snd (get_or_create_level p b x)) = version_ s);
    [| destruct (get_or_create_level p b x) as [lp s2] ] end.
  { unfold get_or_create_level. destruct (PriceMap.find _ _ _); [reflexivity|].
    destruct (SimpleMemoryPool.allocate _). destruct (Order.is_buy o); reflexivity. }
  simpl in *. unfold level_add_order.
  destruct (InternalPriceLevel.add_order _ _ _). simpl. rewrite Hv. reflexivity.
Qed.
End Frames.

(** ** Ids the lookup does not hold *)

(** No call but an [add_order] of that very id registers an id. *)
Section Lookup.
Import Impl.
Variable id : Z.

Lemma lookup_level_add_order lp op s :
  order_lookup_ (level_add_order lp op s) = order_lookup_ s.
Proof.
  unfold level_add_order.
  destruct (InternalPriceLevel.add_order op (level s lp) (order_pool_ s)); reflexivity.
Qed.

Lemma lookup_get_or_create_level p b s :
  order_lookup_ (snd (get_or_create_level p b s)) = order_lookup_ s.
Proof.
  unfold get_or_create_level. destruct (PriceMap.find _ _ _); [reflexivity|].
  destruct (SimpleMemoryPool.allocate _). destruct b; reflexivity.
Qed.

Lemma unknown_remove_filled_order op lp b s :
  unknown id s → unknown id (snd (remove_filled_order op lp b s)).
Proof.
  unfold unknown, remove_filled_order. intros H.
  destruct (Order.quantity (order s op) =? 0); [|exact H].
  assert (Hd : ∀ k, delete k (order_lookup_ (level_remove_order lp op s)) !! id = None).
  { intros k. apply lookup_delete_None. right. rewrite lookup_level_remove_order. exact H. }
  destruct (InternalPriceLevel.is_empty _); simpl; [destruct b; simpl|]; apply Hd.
Qed.

Lemma unknown_match_step s tr s' :
  match_step s = Some (tr, s') → unknown id s → unknown id s'.
Proof.
  unfold match_step.
  destruct (bids_ s) as [|[bp bl] ?]; [discriminate|].
  destruct (asks_ s) as [|[ap al] ?]; [discriminate|].
  destruct (Double.lt bp ap); [discriminate|].
  destruct (negb _ || negb _); [discriminate|].
  destruct (InternalPriceLevel.first_order (level s bl)) as [bo|]; [|discriminate].
  destruct (InternalPriceLevel.first_order (level s al)) as [ao|]; [|discriminate].
  destruct (negb _ || negb _); [discriminate|].
  match goal with |- context [remove_filled_order bo bl true ?x] =>
    pose proof (unknown_remove_filled_order bo bl true x) as Hb;
    destruct (remove_filled_order bo bl true x) as [br s3] end.
  pose proof (unknown_remove_filled_order ao al false s3) as Ha.
  destruct (remove_filled_order ao al false s3) as [ar s4].
  intros [= _ <-] H. apply Ha, Hb, H.
Qed.

Lemma unknown_match_loop fuel : ∀ s trs s',
  match_loop fuel s = Some (trs, s') → unknown id s → unknown id s'.
Proof.
  induction fuel as [|fuel IH]; intros s trs s'; simpl.
  - destruct (match_step s) as [[tr s1]|]; [discriminate|]. intros [= _ <-]. auto.
  - destruct (match_step s) as [[tr s1]|] eqn:Hs; [|intros [= _ <-]; auto].
    destruct (match_loop fuel s1) as [[trs1 s2]|] eqn:Hl; [|discriminate].
    intros [= _ <-] H. eapply IH; eauto. eapply unknown_match_step; eauto.
Qed.

Lemma unknown_match_orders fuel s trs s' :
  match_orders fuel s = Some (trs, s') → unknown id s → unknown id s'.
Proof.
  unfold match_orders. destruct (matching_in_progress_ s).
  - intros [= _ <-]. auto.
  - destruct (match_loop fuel (set_matching true s)) as [[trs1 s1]|] eqn:Hl; [|discriminate].
    intros [= _ <-] H. apply (unknown_match_loop _ _ _ _ Hl H).
Qed.

Lemma unknown_insert_order o s :
  Order.order_id o ≠ id → unknown id s → unknown id (snd (OrderBook.insert_order o s)).
Proof.
  unfold unknown, OrderBook.insert_order. intros Hne H.
  destruct (SimpleMemoryPool.allocate (order_pool_ s)) as [new_order P].
  match goal with |- context [get_or_create_level ?p ?b ?x] =>
    pose proof (lookup_get_or_create_level p b x) as Hg;
    destruct (get_or_create_level p b x) as [lp s2] end.
  simpl in *. rewrite lookup_level_add_order, Hg, lookup_insert_ne; auto.
Qed.

Lemma unknown_add_order fuel o s evs s' :
  OrderBook.add_order fuel o s = Some (evs, s') →
  Order.order_id o ≠ id → unknown id s → unknown id s'.
Proof.
  unfold OrderBook.add_order. intros H Hne Hu.
  destruct (Order.order_id o =? 0); [injection H as _ <-; auto|].
  destruct (OrderBook.price_rejected _); [injection H as _ <-; auto|].
  destruct (OrderBook.quantity_rejected _); [injection H as _ <-; auto|].
  destruct (order_lookup_ s !! Order.order_id o); [injection H as _ <-; auto|].
  destruct (match_orders _ _) as [[trs s1]|] eqn:Hm; [|discriminate].
  injection H as _ <-.
  eapply unknown_match_orders; eauto. apply unknown_insert_order; auto.
Qed.

Lemma unknown_cancel_order id' s :
  unknown id s → unknown id (snd (OrderBook.cancel_order id' s)).
Proof.
  unfold unknown, OrderBook.cancel_order. intros H.
  destruct (id' =? 0); [exact H|].
  destruct (order_lookup_ s !! id') as [op|]; [|exact H].
  assert (Hd : delete id' (order_lookup_ s) !! id = None)
    by (apply lookup_delete_None; auto).
  destruct (negb _); simpl; [exact Hd|].
  destruct (get_level _ _ _) as [lp|]; simpl; [|exact Hd].
  destruct (InternalPriceLevel.is_empty _).
  - rewrite lookup_remove_price_level, lookup_level_remove_order. exact Hd.
  - rewrite lookup_level_remove_order. exact Hd.
Qed.

Lemma lookup_amend_order id' p q s :
  order_lookup_ (snd (OrderBook.amend_order id' p q s)) = order_lookup_ s.
Proof.
  unfold OrderBook.amend_order.
  destruct (id' =? 0); [reflexivity|].
  destruct (OrderBook.price_rejected p); [reflexivity|].
  destruct (OrderBook.quantity_rejected q); [reflexivity|].
  destruct (order_lookup_ s !! id') as [op|]; [|reflexivity].
  destruct (negb _); [reflexivity|].
  destruct (Double.ne _ _).
  - match goal with |- context [get_or_create_level ?p ?b ?x] =>
      pose proof (lookup_get_or_create_level p b x) as Hg;
      destruct (get_or_create_level p b x) as [lp s2] end.
    simpl in *. rewrite lookup_level_add_order, Hg.
    destruct (get_level _ _ _) as [old|]; [|reflexivity].
    destruct (InternalPriceLevel.is_empty _).
    + rewrite lookup_remove_price_level. apply lookup_level_remove_order.
    + apply lookup_level_remove_order.
  - destruct (get_level _ _ _); reflexivity.
Qed.

Lemma unknown_exec fuel op s out s' :
  exec fuel op s = Some (out, s') → adds id op = false → unknown id s → unknown id s'.
Proof.
  destruct op as [o|id'|id' p q]; simpl.
  - destruct (OrderBook.add_order fuel o s) as [[evs s1]|] eqn:Ha; [|discriminate].
    intros [= _ <-] Hne. eapply unknown_add_order; eauto. lia.
  - pose proof (unknown_cancel_order id' s) as Hc.
    destruct (OrderBook.cancel_order id' s) as [[b evs] s1].
    intros [= _ <-] _. exact Hc.
  - pose proof (lookup_amend_order id' p q s) as Hc.
    destruct (OrderBook.amend_order id' p q s) as [[b evs] s1].
    intros [= _ <-] _. unfold unknown. simpl in Hc. rewrite Hc. auto.
Qed.

Lemma unknown_run fuel ops : ∀ s outs s',
  run fuel ops s = Some (outs, s') →
  forallb (fun op => negb (adds id op)) ops = true → unknown id s → unknown id s'.
Proof.
  induction ops as [|op ops IH]; intros s outs s'; simpl.
  - intros [= _ <-]. auto.
  - destruct (exec fuel op s) as [[out s1]|] eqn:He; [|discriminate].
    destruct (run fuel ops s1) as [[outs1 s2]|] eqn:Hr; [|discriminate].
    intros [= _ <-] Hall Hu. apply andb_true_iff in Hall as [H1 H2].
    eapply IH; eauto. eapply unknown_exec; eauto.
    destruct (adds id op); [discriminate|reflexivity].
Qed.
End Lookup.

Lemma forallb_is_match trs : forallb is_match (map Match trs) = true.
Proof. induction trs; simpl; auto. Qed.

(** ** One turn of the matching loop *)

(** A turn is taken only on a crossed book whose two heads are live, and
    the trade it prints is read off the two heads. *)
Lemma match_step_trade (s s' : Impl.t) (tr : Trade) :
  Impl.match_step s = Some (tr, s') →
  ∃ bo ao,
    best_bid_head s = Some bo ∧ best_ask_head s = Some ao
    ∧ Order.is_active (Impl.order s bo) = true
    ∧ Order.is_active (Impl.order s ao) = true
    ∧ crossed s = true
    ∧ tr = mkTrade
             (Z.min (Order.quantity (Impl.order s bo)) (Order.quantity (Impl.order s ao)))
             (if Order.timestamp_ns (Impl.order s bo) <=? Order.timestamp_ns (Impl.order s ao)
              then Order.price (Impl.order s bo) else Order.price (Impl.order s ao))
             (Order.order_id (Impl.order s bo)) (Order.order_id (Impl.order s ao)).
Proof.
  unfold Impl.match_step, best_bid_head, best_ask_head, head_of, crossed.
  destruct (Impl.bids_ s) as [|[bp bl] ?]; [discriminate|].
  destruct (Impl.asks_ s) as [|[ap al] ?]; [discriminate|].
  destruct (Double.lt bp ap); [discriminate|].
  destruct (negb _ || negb _); [discriminate|].
  destruct (InternalPriceLevel.first_order (Impl.level s bl)) as [bo|]; [|discriminate].
  destruct (InternalPriceLevel.first_order (Impl.level s al)) as [ao|]; [|discriminate].
  destruct (Order.is_active (Impl.order s bo)) eqn:Hb; [|discriminate].
  destruct (Order.is_active (Impl.order s ao)) eqn:Ha; [|discriminate].
  simpl.
  destruct (Impl.remove_filled_order bo bl true _) as [br s3].
  destruct (Impl.remove_filled_order ao al false _) as [ar s4].
  intros [= <- <-]. exists bo, ao. repeat split; auto.
Qed.

(** The first trade printed by [add_order] is a turn of the loop on the
    book that [insert_order] left. *)
Lemma add_order_first_trade (fuel : nat) (o : Order.t) (s s' : Impl.t)
      (tr : Trade) (evs : list Event) :
  OrderBook.add_order fuel o s = Some (Match tr :: evs, s') →
  ∃ s1, Impl.match_step (Impl.set_matching true (snd (OrderBook.insert_order o s)))
        = Some (tr, s1).
Proof.
  unfold OrderBook.add_order.
  destruct (Order.order_id o =? 0); [discriminate|].
  destruct (OrderBook.price_rejected _); [discriminate|].
  destruct (OrderBook.quantity_rejected _); [discriminate|].
  destruct (Impl.order_lookup_ s !! Order.order_id o); [discriminate|].
  unfold Impl.match_orders.
  destruct (Impl.matching_in_progress_ _); [discriminate|].
  destruct fuel as [|fuel]; simpl.
  - destruct (Impl.match_step _) as [[tr1 s1]|]; discriminate.
  - destruct (Impl.match_step _) as [[tr1 s1]|]; [|discriminate].
    destruct (Impl.match_loop fuel s1) as [[trs s2]|]; [|discriminate].
    simpl. intros [= -> _ _]. eauto.
Qed.

(** ** When the loop is left *)

Lemma match_step_none (s : Impl.t) :
  Impl.match_step s = None ↔ crossed s = false ∨ heads_live s = false.
Proof.
  unfold Impl.match_step, crossed, heads_live, best_bid_head, best_ask_head, head_of.
  destruct (Impl.bids_ s) as [|[bp bl] ?]; [tauto|].
  destruct (Impl.asks_ s) as [|[ap al] ?]; [tauto|].
  destruct (Double.lt bp ap); simpl; [tauto|].
  destruct (InternalPriceLevel.is_active (Impl.level s bl)); simpl; [|tauto].
  destruct (InternalPriceLevel.is_active (Impl.level s al)); simpl; [|tauto].
  destruct (InternalPriceLevel.first_order (Impl.level s bl)) as [bo|]; [|tauto].
  destruct (InternalPriceLevel.first_order (Impl.level s al)) as [ao|]; [|tauto].
  destruct (Order.is_active (Impl.order s bo)); simpl; [|tauto].
  destruct (Order.is_active (Impl.order s ao)); simpl; [|tauto].
  destruct (Impl.remove_filled_order bo bl true _) as [br s3].
  destruct (Impl.remove_filled_order ao al false _) as [ar s4].
  split; [discriminate|]. intros [H|H]; discriminate.
Qed.

Lemma match_loop_final fuel : ∀ s trs s',
  Impl.match_loop fuel s = Some (trs, s') → Impl.match_step s' = None.
Proof.
  induction fuel as [|fuel IH]; intros s trs s'; simpl.
  - destruct (Impl.match_step s) as [[tr s1]|] eqn:Hs; [discriminate|].
    intros [= _ <-]. exact Hs.
  - destruct (Impl.match_step s) as [[tr s1]|] eqn:Hs; [|intros [= _ <-]; exact Hs].
    destruct (Impl.match_loop fuel s1) as [[trs1 s2]|] eqn:Hl; [|discriminate].
    intros [= _ <-]. eapply IH; eauto.
Qed.

Lemma matching_insert_order o s :
  Impl.matching_in_progress_ (snd (OrderBook.insert_order o s)) = Impl.matching_in_progress_ s.
Proof.
  unfold OrderBook.insert_order.
  destruct (SimpleMemoryPool.allocate (Impl.order_pool_ s)) as [new_order P].
  match goal with |- context [Impl.get_or_create_level ?p ?b ?x] =>
    assert (Hv : Impl.matching_in_progress_ (snd (Impl.get_or_create_level p b x))
                 = Impl.matching_in_progress_ s);
    [| destruct (Impl.get_or_create_level p b x) as [lp s2] ] end.
  { unfold Impl.get_or_create_level. destruct (PriceMap.find _ _ _); [reflexivity|].
    destruct (SimpleMemoryPool.allocate _). destruct (Order.is_buy o); reflexivity. }
  simpl in *. unfold Impl.level_add_order.
  destruct (InternalPriceLevel.add_order _ _ _). simpl. exact Hv.
Qed.

(** When [add_order] has taken an order and returns, the book is crossed
    only if a guard stopped the loop: a best level without a live head. *)
Lemma add_order_crossed_only_at_guard (fuel : nat) (o : Order.t) (s s' : Impl.t)
      (evs : list Event) :
  Impl.matching_in_progress_ s = false →
  OrderBook.add_order fuel o s = Some (evs, s') →
  forallb is_match evs = true →
  crossed s' = true → heads_live s' = false.
Proof.
  intros Hm H Hev Hc. unfold OrderBook.add_order in H.
  destruct (Order.order_id o =? 0); [injection H as <- _; discriminate|].
  destruct (OrderBook.price_rejected _); [injection H as <- _; discriminate|].
  destruct (OrderBook.quantity_rejected _); [injection H as <- _; discriminate|].
  destruct (Impl.order_lookup_ s !! Order.order_id o); [injection H as <- _; discriminate|].
  unfold Impl.match_orders in H. rewrite matching_insert_order, Hm in H.
  destruct (Impl.match_loop _ _) as [[trs s1]|] eqn:Hl; [|discriminate].
  injection H as _ <-.
  apply match_loop_final in Hl. apply match_step_none in Hl.
  change (crossed (Impl.set_matching false s1)) with (crossed s1) in Hc.
  change (heads_live (Impl.set_matching false s1)) with (heads_live s1).
  destruct Hl as [Hl|Hl]; congruence.
Qed.

(** ** Quantities a turn does not touch *)

Section Quantities.
Import Impl.

Lemma ord_upd (p q : nat) (f : Order.t → Order.t) (P : pool Order.t) :
  ord (upd q f P) p = if decide (q = p) then f (ord P q) else ord P p.
Proof.
  unfold ord, upd, SimpleMemoryPool.load, SimpleMemoryPool.store. simpl.
  rewrite lookup_insert. destruct (decide (q = p)); reflexivity.
Qed.

(** An update of the links or of the liveness flag changes no quantity. *)
Lemma quantity_upd (p q : nat) (f : Order.t → Order.t) (P : pool Order.t) :
  (∀ o, Order.quantity (f o) = Order.quantity o) →
  Order.quantity (ord (upd q f P) p) = Order.quantity (ord P p).
Proof.
  intros Hf. rewrite ord_upd. destruct (decide (q = p)) as [->|]; [apply Hf|reflexivity].
Qed.

Lemma quantity_remove_order (op p : nat) (l : InternalPriceLevel.t) (P : pool Order.t) :
  Order.quantity (ord (snd (InternalPriceLevel.remove_order op l P)) p)
  = Order.quantity (ord P p).
Proof.
  unfold InternalPriceLevel.remove_order.
  destruct (negb _); [reflexivity|].
  set (P1 := upd op (Order.set_is_active false) P).
  assert (H1 : Order.quantity (ord P1 p) = Order.quantity (ord P p))
    by (apply quantity_upd; reflexivity).
  destruct (Order.prev (ord P1 op)) as [pv|], (Order.next (ord P1 op)) as [nx|]; simpl;
    rewrite ?quantity_upd by reflexivity; exact H1.
Qed.

Lemma quantity_remove_filled_order (op lp p : nat) (b : bool) (s : t) :
  Order.quantity (order (snd (remove_filled_order op lp b s)) p)
  = Order.quantity (order s p).
Proof.
  unfold remove_filled_order.
  destruct (Order.quantity (order s op) =? 0); [|reflexivity].
  assert (H : Order.quantity (order (level_remove_order lp op s) p)
              = Order.quantity (order s p)).
  { unfold level_remove_order, order.
    pose proof (quantity_remove_order op p (level s lp) (order_pool_ s)) as Hq.
    destruct (InternalPriceLevel.remove_order op (level s lp) (order_pool_ s)) as [l' P'].
    exact Hq. }
  destruct (InternalPriceLevel.is_empty _); simpl; [destruct b|]; exact H.
Qed.

(** A turn of the loop changes the quantity of the two heads only. *)
Lemma match_step_other_quantities (s s' : t) (tr : Trade) (p : nat) :
  match_step s = Some (tr, s') →
  best_bid_head s ≠ Some p →
  best_ask_head s ≠ Some p →
  Order.quantity (order s' p) = Order.quantity (order s p).
Proof.
  unfold match_step, best_bid_head, best_ask_head, head_of.
  destruct (bids_ s) as [|[bp bl] ?]; [discriminate|].
  destruct (asks_ s) as [|[ap al] ?]; [discriminate|].
  destruct (Double.lt bp ap); [discriminate|].
  destruct (negb _ || negb _); [discriminate|].
  destruct (InternalPriceLevel.first_order (level s bl)) as [bo|]; [|discriminate].
  destruct (InternalPriceLevel.first_order (level s al)) as [ao|]; [|discriminate].
  destruct (negb _ || negb _); [discriminate|].
  match goal with |- context [remove_filled_order bo bl true ?x] =>
    pose proof (quantity_remove_filled_order bo bl p true x) as Hb;
    destruct (remove_filled_order bo bl true x) as [br s3] end.
  pose proof (quantity_remove_filled_order ao al p false s3) as Ha.
  destruct (remove_filled_order ao al false s3) as [ar s4].
  intros [= _ <-] Hnb Hna. simpl in Ha, Hb. rewrite Ha, Hb.
  unfold order, set_order. simpl. rewrite !ord_upd.
  destruct (decide (ao = p)) as [->|]; [congruence|].
  destruct (decide (bo = p)) as [->|]; [congruence|]. reflexivity.
Qed.
End Quantities.


(** ** The loop may not end *)

(** On [aliased_book] the best bid level and the best ask level have the
    same slot as head: the order trades with itself, its quantity goes
    from 10 to 2^64 - 10 and back, and no turn removes it. *)
Lemma aliased_book_cycle :
  best_bid_head aliased_book = Some 1%nat
  ∧ best_ask_head aliased_book = Some 1%nat
  ∧ Impl.match_step aliased_book
    = Some (mkTrade 10 (cents 10100) 3 3, after_step aliased_book)
  ∧ Impl.match_step (after_step aliased_book)
    = Some (mkTrade (2 ^ 64 - 10) (cents 10100) 3 3, aliased_book).
Proof. by_running. Qed.

Lemma match_loop_turn (fuel : nat) (s s1 : Impl.t) (tr : Trade) :
  Impl.match_step s = Some (tr, s1) →
  Impl.match_loop fuel s
  = match fuel with
    | O => None
    | S fuel' =>
        match Impl.match_loop fuel' s1 with
        | Some (trs, s2) => Some (tr :: trs, s2)
        | None => None
        end
    end.
Proof. intros H. destruct fuel; simpl; rewrite H; reflexivity. Qed.

Lemma aliased_book_loops (fuel : nat) :
  Impl.match_loop fuel aliased_book = None
  ∧ Impl.match_loop fuel (after_step aliased_book) = None.
Proof.
  destruct aliased_book_cycle as (_ & _ & Ha & Hb).
  induction fuel as [|fuel [IHa IHb]].
  - rewrite (match_loop_turn 0 _ _ _ Ha), (match_loop_turn 0 _ _ _ Hb).
    split; reflexivity.
  - rewrite (match_loop_turn (S fuel) _ _ _ Ha), (match_loop_turn (S fuel) _ _ _ Hb).
    rewrite IHa, IHb. split; reflexivity.
Qed.

(** [add_order] on an order that passes the four checks. *)
Lemma add_order_taken (fuel : nat) (o : Order.t) (s : Impl.t) :
  (Order.order_id o =? 0) = false →
  OrderBook.price_rejected (Order.price o) = false →
  OrderBook.quantity_rejected (Order.quantity o) = false →
  Impl.order_lookup_ s !! Order.order_id o = None →
  OrderBook.add_order fuel o s
  = match Impl.match_orders fuel (snd (OrderBook.insert_order o s)) with
    | Some (trs, s') => Some (map Match trs, s')
    | None => None
    end.
Proof.
  intros H1 H2 H3 H4. unfold OrderBook.add_order. rewrite H1, H2, H3, H4. reflexivity.
Qed.

Lemma match_orders_idle (fuel : nat) (s : Impl.t) :
  Impl.matching_in_progress_ s = false →
  Impl.match_orders fuel s
  = match Impl.match_loop fuel (Impl.set_matching true s) with
    | Some (trs, s') => Some (trs, Impl.set_matching false s')
    | None => None
    end.
Proof. intros H. unfold Impl.match_orders. rewrite H. reflexivity. Qed.

(** The [add_order] of that sell does not return, whatever the fuel. *)
Lemma add_order_may_not_return (fuel : nat) :
  OrderBook.add_order fuel aliasing_sell (book_of scenario_aliased_heads) = None.
Proof.
  rewrite add_order_taken by (vm_compute; reflexivity).
  rewrite match_orders_idle by (vm_compute; reflexivity).
  fold aliased_book. rewrite (proj1 (aliased_book_loops fuel)). reflexivity.
Qed.

(** ** Aggregate quantity of a level *)

(** C1.  The claim: after every mutating call, the [total_quantity] of
    every level of a side index is the sum of the remaining quantities of
    its live members.  On the matching scenario (buy 100.00 x 500, sell
    101.00 x 300, buy 101.50 x 200) the third [add_order] trades 200
    against the resting sell; the sell stays queued alone at 101.00 with
    100 remaining and its liveness flag set, while the level keeps
    [total_quantity = 300]: the loop lowers the quantity of the orders and
    never that of their level. *)
Theorem partial_fill_leaves_total_stale :
  outcomes_of scenario_matching
  = Some [quiet; quiet; mkOutcome true [Match (mkTrade 200 (cents 10100) 3 2)]]
  ∧ Impl.asks_ (book_of scenario_matching) = [(cents 10100, 1%nat)]
  ∧ members (book_of scenario_matching) 1 = [1%nat]
  ∧ Impl.order (book_of scenario_matching) 1
    = Order.mk 2 false (cents 10100) 100 1001 None None true
  ∧ members_quantity (book_of scenario_matching) 1 = 100
  ∧ live_quantity (book_of scenario_matching) 1 = 100
  ∧ InternalPriceLevel.total_quantity (Impl.level (book_of scenario_matching) 1) = 300
  ∧ snd (OrderBook.get_snapshot 5 (book_of scenario_matching)) = [(cents 10100, 300)]
  ∧ aggregates_ok (book_of scenario_matching) = false.
Proof. by_running. Qed.

(** ** Crossing *)

(** C2.  The claim: when [add_order] returns and both sides have a level,
    the best bid is strictly below the best ask.  A sell resting at 102.00
    is repriced to 99.00, which clears its liveness flag; the buy at 100.00
    added next finds a crossed book, the loop stops at the flag of the ask
    head without a trade, and [add_order] returns with best bid 100.00 and
    best ask 99.00. *)
Theorem add_order_leaves_book_crossed :
  outcomes_of scenario_repriced_ask = Some [quiet; quiet; quiet]
  ∧ OrderBook.get_best_bid (book_of scenario_repriced_ask) = cents 10000
  ∧ OrderBook.get_best_ask (book_of scenario_repriced_ask) = cents 9900
  ∧ Double.lt (OrderBook.get_best_bid (book_of scenario_repriced_ask))
              (OrderBook.get_best_ask (book_of scenario_repriced_ask)) = false
  ∧ crossed (book_of scenario_repriced_ask) = true
  ∧ Order.is_active <$> resting (book_of scenario_repriced_ask) 2 = Some false.
Proof. by_running. Qed.

(** ** Amending the price *)

(** [remove_order] clears the liveness flag and nothing on the path of a
    price change sets it again. *)
Section Liveness.
Import Impl.

Lemma active_upd (p q : nat) (f : Order.t → Order.t) (P : pool Order.t) :
  (∀ o, Order.is_active (f o) = Order.is_active o) →
  Order.is_active (ord (upd q f P) p) = Order.is_active (ord P p).
Proof.
  intros Hf. rewrite ord_upd. destruct (decide (q = p)) as [->|]; [apply Hf|reflexivity].
Qed.

(** [remove_order] leaves the order with its liveness flag cleared. *)
Lemma remove_order_clears_flag (op : nat) (l : InternalPriceLevel.t) (P : pool Order.t) :
  Order.is_active (ord (snd (InternalPriceLevel.remove_order op l P)) op) = false.
Proof.
  unfold InternalPriceLevel.remove_order.
  destruct (Order.is_active (ord P op)) eqn:Ha; simpl; [|exact Ha].
  set (P1 := upd op (Order.set_is_active false) P).
  assert (H1 : Order.is_active (ord P1 op) = false).
  { unfold P1. rewrite ord_upd. destruct (decide (op = op)); [reflexivity|congruence]. }
  destruct (Order.prev (ord P1 op)) as [pv|], (Order.next (ord P1 op)) as [nx|]; simpl;
    rewrite ?active_upd by reflexivity; exact H1.
Qed.

(** [add_order] of a level changes links only. *)
Lemma active_add_order (op p : nat) (l : InternalPriceLevel.t) (P : pool Order.t) :
  Order.is_active (ord (snd (InternalPriceLevel.add_order op l P)) p)
  = Order.is_active (ord P p).
Proof.
  unfold InternalPriceLevel.add_order.
  destruct (InternalPriceLevel.first_order l); simpl; [|reflexivity].
  destruct (InternalPriceLevel.last_order l); simpl;
    rewrite ?active_upd by reflexivity; reflexivity.
Qed.

Lemma order_pool_remove_price_level p b s :
  order_pool_ (remove_price_level p b s) = order_pool_ s.
Proof.
  unfold remove_price_level. destruct (PriceMap.find _ _ _); [|reflexivity].
  destruct b; reflexivity.
Qed.

Lemma order_pool_get_or_create_level p b s :
  order_pool_ (snd (get_or_create_level p b s)) = order_pool_ s.
Proof.
  unfold get_or_create_level. destruct (PriceMap.find _ _ _); [reflexivity|].
  destruct (SimpleMemoryPool.allocate _). destruct b; reflexivity.
Qed.

Lemma order_pool_level_remove_order lp op s :
  order_pool_ (level_remove_order lp op s)
  = snd (InternalPriceLevel.remove_order op (level s lp) (order_pool_ s)).
Proof.
  unfold level_remove_order.
  destruct (InternalPriceLevel.remove_order op (level s lp) (order_pool_ s)); reflexivity.
Qed.

Lemma order_pool_level_add_order lp op s :
  order_pool_ (level_add_order lp op s)
  = snd (InternalPriceLevel.add_order op (level s lp) (order_pool_ s)).
Proof.
  unfold level_add_order.
  destruct (InternalPriceLevel.add_order op (level s lp) (order_pool_ s)); reflexivity.
Qed.

(** A successful [amend_order] to another price, of an order whose level is
    in the index, returns a book in which the order is still registered
    and its liveness flag is cleared. *)
Lemma amend_price_clears_flag (id : Z) (p : Price) (q : Z) (s s' : t)
      (evs : list Event) (op : nat) :
  OrderBook.amend_order id p q s = (true, evs, s') →
  order_lookup_ s !! id = Some op →
  Double.ne (Order.price (order s op)) p = true →
  is_Some (get_level (Order.price (order s op)) (Order.is_buy (order s op)) s) →
  order_lookup_ s' !! id = Some op ∧ Order.is_active (order s' op) = false.
Proof.
  intros H Hl Hne [old Hold].
  pose proof (lookup_amend_order id p q s) as Hlk. rewrite H in Hlk. simpl in Hlk.
  split; [rewrite Hlk; exact Hl|].
  unfold OrderBook.amend_order in H. rewrite Hl, Hne, Hold in H.
  destruct (id =? 0); [discriminate|].
  destruct (OrderBook.price_rejected p); [discriminate|].
  destruct (OrderBook.quantity_rejected q); [discriminate|].
  destruct (negb _); [discriminate|].
  match type of H with context [get_or_create_level ?a ?b ?x] =>
    pose proof (order_pool_get_or_create_level a b x) as Hg;
    destruct (get_or_create_level a b x) as [nl s4] end.
  injection H as _ <-. simpl in Hg.
  unfold order. simpl. rewrite order_pool_level_add_order, active_add_order, Hg.
  unfold set_order. simpl. rewrite !active_upd by reflexivity.
  destruct (InternalPriceLevel.is_empty _);
    rewrite ?order_pool_remove_price_level, order_pool_level_remove_order;
    apply remove_order_clears_flag.
Qed.

(** Such an order can be neither cancelled nor amended afterwards. *)
Lemma not_live_cannot_be_changed (id : Z) (s : t) (op : nat) :
  order_lookup_ s !! id = Some op →
  Order.is_active (order s op) = false →
  fst (fst (OrderBook.cancel_order id s)) = false
  ∧ ∀ p q, fst (fst (OrderBook.amend_order id p q s)) = false.
Proof.
  intros Hl Ha. split.
  - unfold OrderBook.cancel_order. destruct (id =? 0); [reflexivity|].
    rewrite Hl. change (order (set_lookup _ s) op) with (order s op).
    rewrite Ha. reflexivity.
  - intros p q. unfold OrderBook.amend_order.
    destruct (id =? 0); [reflexivity|].
    destruct (OrderBook.price_rejected p); [reflexivity|].
    destruct (OrderBook.quantity_rejected q); [reflexivity|].
    rewrite Hl, Ha. reflexivity.
Qed.
End Liveness.

(** C3.  The claim: after a successful [amend_order] to another price the
    order rests at the tail of the level at the new price with its id and
    timestamp, and is still live, so that it can be cancelled or amended
    again.  A buy at 100.00 repriced to 101.00 is indeed the last order of
    the level at 101.00 and has kept id and timestamp, but its liveness
    flag is left cleared by [remove_order]: the [cancel_order] that follows
    returns [false], and so does a second, valid [amend_order]. *)
Theorem repriced_order_is_not_live :
  outcomes_of scenario_repriced_bid = Some [quiet; quiet]
  ∧ Impl.order_lookup_ (book_of scenario_repriced_bid) !! 1 = Some 0%nat
  ∧ Impl.bids_ (book_of scenario_repriced_bid) = [(cents 10100, 0%nat)]
  ∧ InternalPriceLevel.last_order (Impl.level (book_of scenario_repriced_bid) 0) = Some 0%nat
  ∧ Impl.order (book_of scenario_repriced_bid) 0
    = Order.mk 1 true (cents 10100) 10 1000 None None false
  ∧ fst (OrderBook.cancel_order 1 (book_of scenario_repriced_bid)) = (false, [])
  ∧ OrderBook.amend_order 1 (cents 10200) 10 (book_of scenario_repriced_bid)
    = (false, [Error (OrderNotActive 1)], book_of scenario_repriced_bid).
Proof. by_running. Qed.

(** ** Rejected calls *)

(** A failed [amend_order] leaves the book as it was. *)
Lemma amend_order_false_unchanged (id : Z) (p : Price) (q : Z) (s : Impl.t) :
  fst (fst (OrderBook.amend_order id p q s)) = false →
  snd (OrderBook.amend_order id p q s) = s.
Proof.
  unfold OrderBook.amend_order.
  destruct (id =? 0); [reflexivity|].
  destruct (OrderBook.price_rejected p); [reflexivity|].
  destruct (OrderBook.quantity_rejected q); [reflexivity|].
  destruct (Impl.order_lookup_ s !! id) as [op|]; [|reflexivity].
  destruct (negb _); [reflexivity|].
  destruct (Double.ne _ _).
  - destruct (Impl.get_or_create_level _ _ _). discriminate.
  - destruct (Impl.get_level _ _ _); [discriminate|reflexivity].
Qed.

(** A failed [cancel_order] leaves the book as it was, unless the id is
    registered with its liveness flag cleared. *)
Lemma cancel_order_false_cases (id : Z) (s : Impl.t) :
  fst (fst (OrderBook.cancel_order id s)) = false →
  snd (OrderBook.cancel_order id s) = s
  ∨ Order.is_active <$> resting s id = Some false.
Proof.
  unfold OrderBook.cancel_order, resting.
  destruct (id =? 0); [left; reflexivity|].
  destruct (Impl.order_lookup_ s !! id) as [op|]; [|left; reflexivity].
  simpl. change (Impl.order (Impl.set_lookup _ s) op) with (Impl.order s op).
  destruct (Order.is_active (Impl.order s op)); simpl; [discriminate|].
  right. reflexivity.
Qed.

(** C4.  The claim: a rejected call leaves side indices, order lookup,
    order count and version as they were.  [cancel_order] erases the id
    from the lookup before it tests the liveness flag: on the buy repriced
    to 101.00 it returns [false] after the order count went from 1 to 0 and
    the slot went back to the pool, the level at 101.00 still pointing to
    it. *)
Theorem failed_cancel_changes_the_book :
  fst (OrderBook.cancel_order 1 (book_of scenario_repriced_bid)) = (false, [])
  ∧ OrderBook.get_order_count (book_of scenario_repriced_bid) = 1%nat
  ∧ OrderBook.get_order_count (snd (OrderBook.cancel_order 1 (book_of scenario_repriced_bid)))
    = 0%nat
  ∧ Impl.order_lookup_ (book_of scenario_repriced_bid) !! 1 = Some 0%nat
  ∧ Impl.order_lookup_ (snd (OrderBook.cancel_order 1 (book_of scenario_repriced_bid))) !! 1
    = None
  ∧ SimpleMemoryPool.free_list_head_
      (Impl.order_pool_ (snd (OrderBook.cancel_order 1 (book_of scenario_repriced_bid))))
    = [0%nat]
  ∧ best_bid_head (snd (OrderBook.cancel_order 1 (book_of scenario_repriced_bid)))
    = Some 0%nat.
Proof. by_running. Qed.

(** ** Trade price *)

(** C5, the claim as stated: an order that trades right after its
    [add_order] trades at the price of the resting order.  A sell rests at
    100.00 with timestamp 2000; the buy at 105.00 that hits it carries
    timestamp 1000, which [add_order] takes as given.  The trade is printed
    at 105.00, the limit of the incoming buy.  So it is when both orders
    carry the timestamp 1000. *)
Lemma incoming_order_sets_price :
  outcomes_of scenario_late_stamp
  = Some [quiet; mkOutcome true [Match (mkTrade 10 (cents 10500) 2 1)]]
  ∧ outcomes_of scenario_same_stamp
    = Some [quiet; mkOutcome true [Match (mkTrade 10 (cents 10500) 2 1)]]
  ∧ Order.price <$> resting (book_of [Add (Order.make 1 false (cents 10000) 10 2000)]) 1
    = Some (cents 10000)
  ∧ Order.price <$> resting (book_of [Add (Order.make 1 false (cents 10000) 10 1000)]) 1
    = Some (cents 10000)
  ∧ Double.eqb (cents 10500) (cents 10000) = false.
Proof. by_running. Qed.

(** C5, amended.  In every turn of the matching loop the trade price is the
    price of the head order whose timestamp is strictly earlier.  An
    incoming order that is one of the two heads therefore trades at the
    price of the resting head when the resting head carries the strictly
    earlier timestamp; timestamps come from the caller and are not
    checked. *)
Theorem earlier_head_sets_price (s s' : Impl.t) (tr : Trade) (bo ao : nat) :
  Impl.match_step s = Some (tr, s') →
  best_bid_head s = Some bo →
  best_ask_head s = Some ao →
  (Order.timestamp_ns (Impl.order s bo) < Order.timestamp_ns (Impl.order s ao) →
   match_price tr = Order.price (Impl.order s bo))
  ∧ (Order.timestamp_ns (Impl.order s ao) < Order.timestamp_ns (Impl.order s bo) →
     match_price tr = Order.price (Impl.order s ao)).
Proof.
  intros H Hb Ha.
  destruct (match_step_trade _ _ _ H) as (bo' & ao' & Hb' & Ha' & _ & _ & _ & ->).
  rewrite Hb in Hb'. rewrite Ha in Ha'. injection Hb' as <-. injection Ha' as <-.
  simpl. split; intros Hlt.
  - destruct (Z.leb_spec (Order.timestamp_ns (Impl.order s bo))
                         (Order.timestamp_ns (Impl.order s ao))); [reflexivity|lia].
  - destruct (Z.leb_spec (Order.timestamp_ns (Impl.order s bo))
                         (Order.timestamp_ns (Impl.order s ao))); [lia|reflexivity].
Qed.

(** The buy at 105.00 stamped 1001 meets the sell resting at 100.00 since
    1000 and trades at 100.00. *)
Lemma earlier_head_sets_price_witness :
  Impl.match_step later_book = Some (later_trade, after_step later_book)
  ∧ best_bid_head later_book = Some 1%nat
  ∧ best_ask_head later_book = Some 0%nat
  ∧ (Order.timestamp_ns (Impl.order later_book 0) < Order.timestamp_ns (Impl.order later_book 1) →
     match_price later_trade = Order.price (Impl.order later_book 0)).
Proof.
  assert (H1 : Impl.match_step later_book = Some (later_trade, after_step later_book))
    by (vm_compute; reflexivity).
  assert (H2 : best_bid_head later_book = Some 1%nat) by (vm_compute; reflexivity).
  assert (H3 : best_ask_head later_book = Some 0%nat) by (vm_compute; reflexivity).
  split; [exact H1|]. split; [exact H2|]. split; [exact H3|].
  exact (proj2 (earlier_head_sets_price later_book (after_step later_book) later_trade
                  1%nat 0%nat H1 H2 H3)).
Defined.

(** The first trade of an [add_order] obeys the rule on the book that
    [insert_order] left: whichever head is the incoming order, the price is
    that of the other head when the other head is stamped strictly
    earlier. *)
Corollary first_trade_price (fuel : nat) (o : Order.t) (s s' : Impl.t)
          (tr : Trade) (evs : list Event) (bo ao : nat) :
  OrderBook.add_order fuel o s = Some (Match tr :: evs, s') →
  best_bid_head (snd (OrderBook.insert_order o s)) = Some bo →
  best_ask_head (snd (OrderBook.insert_order o s)) = Some ao →
  let s_ins := snd (OrderBook.insert_order o s) in
  (Order.timestamp_ns (Impl.order s_ins bo) < Order.timestamp_ns (Impl.order s_ins ao) →
   match_price tr = Order.price (Impl.order s_ins bo))
  ∧ (Order.timestamp_ns (Impl.order s_ins ao) < Order.timestamp_ns (Impl.order s_ins bo) →
     match_price tr = Order.price (Impl.order s_ins ao)).
Proof.
  intros H Hb Ha s_ins. subst s_ins.
  destruct (add_order_first_trade _ _ _ _ _ _ H) as [s1 Hs].
  destruct (match_step_trade _ _ _ Hs) as (bo' & ao' & Hb' & Ha' & _ & _ & _ & ->).
  change (best_bid_head (snd (OrderBook.insert_order o s)) = Some bo') in Hb'.
  change (best_ask_head (snd (OrderBook.insert_order o s)) = Some ao') in Ha'.
  rewrite Hb in Hb'. rewrite Ha in Ha'. injection Hb' as <-. injection Ha' as <-.
  change (Impl.order (Impl.set_matching true (snd (OrderBook.insert_order o s))))
    with (Impl.order (snd (OrderBook.insert_order o s))).
  simpl match_price. split; intros Hlt.
  - destruct (Z.leb_spec
                (Order.timestamp_ns (Impl.order (snd (OrderBook.insert_order o s)) bo))
                (Order.timestamp_ns (Impl.order (snd (OrderBook.insert_order o s)) ao)));
      [reflexivity|lia].
  - destruct (Z.leb_spec
                (Order.timestamp_ns (Impl.order (snd (OrderBook.insert_order o s)) bo))
                (Order.timestamp_ns (Impl.order (snd (OrderBook.insert_order o s)) ao)));
      [lia|reflexivity].
Qed.

(** C10.  When the two heads carry the same timestamp, the turn trades at
    the price of the bid head.  [match_step] is a function of the book, so
    the choice is the same whenever the book is. *)
Theorem tie_trades_at_bid_price (s s' : Impl.t) (tr : Trade) (bo ao : nat) :
  Impl.match_step s = Some (tr, s') →
  best_bid_head s = Some bo →
  best_ask_head s = Some ao →
  Order.timestamp_ns (Impl.order s bo) = Order.timestamp_ns (Impl.order s ao) →
  match_price tr = Order.price (Impl.order s bo).
Proof.
  intros H Hb Ha Hts.
  destruct (match_step_trade _ _ _ H) as (bo' & ao' & Hb' & Ha' & _ & _ & _ & ->).
  rewrite Hb in Hb'. rewrite Ha in Ha'. injection Hb' as <-. injection Ha' as <-.
  simpl. rewrite Hts, Z.leb_refl. reflexivity.
Qed.

(** The buy at 105.00 and the sell at 100.00 are both stamped 1000: the
    trade is printed at 105.00. *)
Lemma tie_trades_at_bid_price_witness :
  Impl.match_step tie_book = Some (tie_trade, after_step tie_book)
  ∧ best_bid_head tie_book = Some 1%nat
  ∧ best_ask_head tie_book = Some 0%nat
  ∧ Order.timestamp_ns (Impl.order tie_book 1) = Order.timestamp_ns (Impl.order tie_book 0)
  ∧ match_price tie_trade = Order.price (Impl.order tie_book 1).
Proof.
  assert (H1 : Impl.match_step tie_book = Some (tie_trade, after_step tie_book))
    by (vm_compute; reflexivity).
  assert (H2 : best_bid_head tie_book = Some 1%nat) by (vm_compute; reflexivity).
  assert (H3 : best_ask_head tie_book = Some 0%nat) by (vm_compute; reflexivity).
  assert (H4 : Order.timestamp_ns (Impl.order tie_book 1)
               = Order.timestamp_ns (Impl.order tie_book 0)) by (vm_compute; reflexivity).
  split; [exact H1|]. split; [exact H2|]. split; [exact H3|]. split; [exact H4|].
  exact (tie_trades_at_bid_price tie_book (after_step tie_book) tie_trade
           1%nat 0%nat H1 H2 H3 H4).
Defined.

(** ** Spread *)

(** What [get_spread] returns, side by side: nothing to sell gives 0; with
    something to sell it is the difference with [get_best_bid], which is
    0.0 when there is nothing to buy. *)
Lemma get_spread_no_asks (s : Impl.t) :
  Impl.asks_ s = [] → OrderBook.get_spread s = Double.zero.
Proof. intros H. unfold OrderBook.get_spread, OrderBook.get_best_ask. rewrite H. reflexivity. Qed.

Lemma get_spread_asks (s : Impl.t) :
  Double.eqb (OrderBook.get_best_ask s) Double.max = false →
  OrderBook.get_spread s = Double.sub (OrderBook.get_best_ask s) (OrderBook.get_best_bid s).
Proof. intros H. unfold OrderBook.get_spread. rewrite H. reflexivity. Qed.

(** With something to sell and nothing to buy, [get_spread] is the best
    ask. *)
Lemma get_spread_no_bids (s : Impl.t) (sg : bool) (m : positive) (e : Z) :
  Impl.bids_ s = [] →
  OrderBook.get_best_ask s = S754_finite sg m e →
  Double.eqb (S754_finite sg m e) Double.max = false →
  OrderBook.get_spread s = S754_finite sg m e.
Proof.
  intros Hb Ha Hm. unfold OrderBook.get_spread, OrderBook.get_best_bid.
  rewrite Ha, Hm, Hb. reflexivity.
Qed.

(** C6.  The claim: [get_spread] is best ask minus best bid when both sides
    have a level and 0 when either side is empty.  Only the sentinel of the
    ask side is tested: on a book holding one sell at 102.00 and no buy the
    spread returned is 102.00. *)
Theorem spread_without_bids :
  outcomes_of scenario_asks_only = Some [quiet]
  ∧ OrderBook.get_bid_levels (book_of scenario_asks_only) = 0%nat
  ∧ OrderBook.get_ask_levels (book_of scenario_asks_only) = 1%nat
  ∧ OrderBook.get_best_bid (book_of scenario_asks_only) = Double.zero
  ∧ OrderBook.get_best_ask (book_of scenario_asks_only) = cents 10200
  ∧ OrderBook.get_spread (book_of scenario_asks_only) = cents 10200
  ∧ Double.eqb (OrderBook.get_spread (book_of scenario_asks_only)) Double.zero = false.
Proof. by_running. Qed.

(** ** Time priority *)

(** A level queues at the tail and keeps its head: [add_order] makes the
    order the last one and leaves the first one of a level that has one. *)
Lemma level_add_order_appends (op : nat) (l : InternalPriceLevel.t) (P : pool Order.t) :
  InternalPriceLevel.last_order (fst (InternalPriceLevel.add_order op l P)) = Some op
  ∧ (∀ f, InternalPriceLevel.first_order l = Some f →
          InternalPriceLevel.first_order (fst (InternalPriceLevel.add_order op l P)) = Some f)
  ∧ (InternalPriceLevel.first_order l = None →
     InternalPriceLevel.first_order (fst (InternalPriceLevel.add_order op l P)) = Some op).
Proof.
  unfold InternalPriceLevel.add_order.
  destruct (InternalPriceLevel.first_order l) as [f|] eqn:Hf; simpl.
  - rewrite Hf. repeat split; [intros f' [= <-]; reflexivity|discriminate].
  - repeat split. discriminate.
Qed.

(** Scenario 3 runs as the testable properties say: the first buy is filled
    and gone, the second has 50 left, the third is untouched. *)
Example fifo_scenario :
  outcomes_of scenario_fifo
  = Some [quiet; quiet; quiet;
          mkOutcome true [Match (mkTrade 100 (cents 10000) 1 4);
                          Match (mkTrade 150 (cents 10000) 2 4)]]
  ∧ resting (book_of scenario_fifo) 1 = None
  ∧ Order.quantity <$> resting (book_of scenario_fifo) 2 = Some 50
  ∧ Order.quantity <$> resting (book_of scenario_fifo) 3 = Some 150
  ∧ resting (book_of scenario_fifo) 4 = None.
Proof. by_running. Qed.

(** C7.  The claim: orders resting at one price on one side are filled in
    arrival order.  Buys 1 and 2 rest at 100.00; buy 2 is repriced to
    101.00 (its liveness flag is cleared), then cancelled: [cancel_order]
    returns [false] and hands the slot back to the pool while the level at
    101.00 still points to it.  Buy 3 at 100.00 takes that slot and queues
    behind buy 1.  The sell of 5 at 100.00 meets the level at 101.00 first,
    whose head is now buy 3: buy 3 is filled for 5 while buy 1, earlier at
    the same price, keeps its 10. *)
Theorem later_order_filled_first :
  outcomes_of scenario_recycled_slot
  = Some [quiet; quiet; quiet; mkOutcome false []; quiet;
          mkOutcome true [Match (mkTrade 5 (cents 10000) 3 4)]]
  ∧ Impl.bids_ (book_of scenario_recycled_slot)
    = [(cents 10100, 1%nat); (cents 10000, 0%nat)]
  ∧ members (book_of scenario_recycled_slot) 0 = [0%nat; 1%nat]
  ∧ resting (book_of scenario_recycled_slot) 1
    = Some (Order.mk 1 true (cents 10000) 10 1 (Some 1%nat) None true)
  ∧ resting (book_of scenario_recycled_slot) 3
    = Some (Order.mk 3 true (cents 10000) 5 3 None (Some 0%nat) true)
  ∧ best_bid_head (book_of scenario_recycled_slot)
    = Impl.order_lookup_ (book_of scenario_recycled_slot) !! 3.
Proof. by_running. Qed.

(** ** Validation of [add_order] *)

(** C8, the claim as stated: [add_order] takes an order only if its price
    lies in the half-open interval above [MIN_PRICE].  An order priced at
    [MIN_PRICE] itself is taken: the book holds it afterwards and nothing
    is printed. *)
Lemma min_price_is_accepted :
  Double.lt MIN_PRICE (Order.price order_at_min_price) = false
  ∧ fst <$> OrderBook.add_order 16 order_at_min_price Impl.create = Some []
  ∧ OrderBook.get_order_count (book_of [Add order_at_min_price]) = 1%nat
  ∧ Order.price <$> resting (book_of [Add order_at_min_price]) 1 = Some MIN_PRICE
  ∧ ¬ rejected 16 order_at_min_price Impl.create.
Proof.
  repeat match goal with |- _ ∧ _ => split; [vm_compute; reflexivity|] end.
  intros [d Hd]. vm_compute in Hd. discriminate Hd.
Qed.

(** C8, amended.  [add_order] takes an order if and only if its id is not
    zero and not registered, its price is finite and lies in the closed
    interval from [MIN_PRICE] to [MAX_PRICE], and its quantity lies between
    1 and [MAX_ORDER_QUANTITY]; otherwise it prints one diagnostic and
    returns the book it was given.  An order that is taken is queued by
    [insert_order] and the matching loop runs: whatever [add_order] then
    returns, only trades were printed and the version went up by one.  The
    quantity is a [uint64_t], hence not negative. *)
Theorem add_order_accepts_iff (fuel : nat) (o : Order.t) (s : Impl.t) :
  0 <= Order.quantity o →
  (rejected fuel o s ↔ ¬ acceptable o s)
  ∧ (acceptable o s →
     OrderBook.add_order fuel o s
     = match Impl.match_orders fuel (snd (OrderBook.insert_order o s)) with
       | Some (trs, s') => Some (map Match trs, s')
       | None => None
       end
     ∧ ∀ evs s', OrderBook.add_order fuel o s = Some (evs, s') →
         forallb is_match evs = true
         ∧ OrderBook.get_version s' = wrap64 (OrderBook.get_version s + 1)).
Proof.
  intros Hq.
  assert (Hcases :
    (rejected fuel o s ∧ ¬ acceptable o s)
    ∨ (acceptable o s
       ∧ OrderBook.add_order fuel o s
         = match Impl.match_orders fuel (snd (OrderBook.insert_order o s)) with
           | Some (trs, s') => Some (map Match trs, s')
           | None => None
           end)).
  { unfold rejected, acceptable, OrderBook.add_order.
    destruct (Order.order_id o =? 0) eqn:Hid.
    { left. split; [eauto|]. intros [H _]. lia. }
    destruct (OrderBook.price_rejected (Order.price o)) eqn:Hp.
    { left. split; [eauto|]. intros (_ & _ & H1 & H2 & H3 & _).
      assert (H : OrderBook.price_rejected (Order.price o) = false)
        by (apply price_rejected_spec; auto).
      congruence. }
    unfold OrderBook.quantity_rejected.
    destruct (Order.quantity o =? 0) eqn:Hq0; simpl.
    { left. split; [eauto|]. intros (_ & _ & _ & _ & _ & H). lia. }
    destruct (MAX_ORDER_QUANTITY <? Order.quantity o) eqn:Hq1.
    { left. split; [eauto|]. intros (_ & _ & _ & _ & _ & H). lia. }
    destruct (Impl.order_lookup_ s !! Order.order_id o) eqn:Hl.
    { left. split; [eauto|]. intros (_ & H & _). congruence. }
    right. split; [|reflexivity].
    apply price_rejected_spec in Hp. destruct Hp as (? & ? & ?).
    repeat split; auto; lia. }
  split.
  - destruct Hcases as [[Hr Hn]|[Ha He]]; [tauto|].
    split; [|tauto]. intros [d Hd]. rewrite He in Hd.
    destruct (Impl.match_orders _ _) as [[trs s1]|]; [|discriminate].
    injection Hd as Hm _. destruct trs; discriminate.
  - intros Ha. destruct Hcases as [[Hr Hn]|[_ He]]; [tauto|].
    split; [exact He|]. intros evs s'. rewrite He.
    destruct (Impl.match_orders _ _) as [[trs s1]|] eqn:Hm; [|discriminate].
    intros [= <- <-]. split; [apply forallb_is_match|].
    unfold OrderBook.get_version.
    rewrite (version_match_orders _ _ _ _ Hm). apply version_insert_order.
Qed.

(** An order at the lower bound of the price interval on a fresh book. *)
Lemma add_order_accepts_iff_witness :
  0 <= Order.quantity order_at_min_price
  ∧ (rejected 16 order_at_min_price Impl.create
     ↔ ¬ acceptable order_at_min_price Impl.create).
Proof.
  assert (H : 0 <= Order.quantity order_at_min_price) by (vm_compute; discriminate).
  split; [exact H|].
  exact (proj1 (add_order_accepts_iff 16 order_at_min_price Impl.create H)).
Defined.

(** ** Cancelling twice *)

Lemma cancel_order_unknown (id : Z) (s : Impl.t) :
  id = 0 ∨ Impl.order_lookup_ s !! id = None →
  ∃ d, OrderBook.cancel_order id s = (false, [Error d], s).
Proof.
  intros H. unfold OrderBook.cancel_order.
  destruct (id =? 0) eqn:Hid; [eauto|].
  destruct H as [H | H]; [subst; discriminate | rewrite H; eauto].
Qed.

Lemma cancel_order_unregisters (id : Z) (s : Impl.t) :
  id = 0 ∨ Impl.order_lookup_ (snd (OrderBook.cancel_order id s)) !! id = None.
Proof.
  unfold OrderBook.cancel_order.
  destruct (id =? 0) eqn:Hid; [left; lia|right].
  destruct (Impl.order_lookup_ s !! id) as [op|] eqn:Hl; [|exact Hl].
  destruct (negb _); simpl.
  - apply lookup_delete_eq.
  - destruct (Impl.get_level _ _ _) as [lp|]; simpl.
    + destruct (InternalPriceLevel.is_empty _).
      * rewrite lookup_remove_price_level, lookup_level_remove_order. simpl.
        apply lookup_delete_eq.
      * rewrite lookup_level_remove_order. simpl. apply lookup_delete_eq.
    + apply lookup_delete_eq.
Qed.

(** Two calls in a row: the second returns [false] and the book it was
    given. *)
Lemma cancel_order_twice (id : Z) (s : Impl.t) :
  let s1 := snd (OrderBook.cancel_order id s) in
  fst (fst (OrderBook.cancel_order id s1)) = false
  ∧ snd (OrderBook.cancel_order id s1) = s1.
Proof.
  intros s1.
  destruct (cancel_order_unknown id s1 (cancel_order_unregisters id s)) as [d Hd].
  rewrite Hd. split; reflexivity.
Qed.

(** C9.  Once [cancel_order] has been called on an id, and whatever calls
    follow that do not add an order with that id again, a further
    [cancel_order] on the id returns [false] and returns the book it was
    given: version, order count and the levels of both sides are what they
    were before that call.  With no call in between this is cancelling
    twice in a row. *)
Theorem cancel_again_changes_nothing (fuel : nat) (id : Z) (ops : list Op)
        (s s2 : Impl.t) (outs : list Outcome) :
  forallb (fun op => negb (adds id op)) ops = true →
  run fuel ops (snd (OrderBook.cancel_order id s)) = Some (outs, s2) →
  fst (fst (OrderBook.cancel_order id s2)) = false
  ∧ snd (OrderBook.cancel_order id s2) = s2
  ∧ OrderBook.get_version (snd (OrderBook.cancel_order id s2)) = OrderBook.get_version s2
  ∧ OrderBook.get_order_count (snd (OrderBook.cancel_order id s2))
    = OrderBook.get_order_count s2
  ∧ OrderBook.get_bid_levels (snd (OrderBook.cancel_order id s2))
    = OrderBook.get_bid_levels s2
  ∧ OrderBook.get_ask_levels (snd (OrderBook.cancel_order id s2))
    = OrderBook.get_ask_levels s2
  ∧ OrderBook.get_snapshot (length (Impl.bids_ s2) + length (Impl.asks_ s2))
      (snd (OrderBook.cancel_order id s2))
    = OrderBook.get_snapshot (length (Impl.bids_ s2) + length (Impl.asks_ s2)) s2.
Proof.
  intros Hops Hrun.
  assert (Hu : id = 0 ∨ unknown id s2).
  { destruct (cancel_order_unregisters id s) as [H0|Hn]; [left; exact H0|right].
    eapply unknown_run; eauto. }
  destruct (cancel_order_unknown id s2 Hu) as [d Hd].
  rewrite Hd. simpl. repeat split.
Qed.

(** Buy 7 is cancelled; a sell is added and amended; buy 7 is cancelled
    again. *)
Lemma cancel_again_changes_nothing_witness :
  forallb (fun op => negb (adds 7 op)) scenario_after_cancel = true
  ∧ run 16 scenario_after_cancel
        (snd (OrderBook.cancel_order 7 (book_of [ Add (Order.make 7 true (cents 10000) 10 1000) ])))
    = Some (later_cancel_outcomes, later_cancel_book)
  ∧ fst (fst (OrderBook.cancel_order 7 later_cancel_book)) = false
  ∧ snd (OrderBook.cancel_order 7 later_cancel_book) = later_cancel_book.
Proof.
  assert (H1 : forallb (fun op => negb (adds 7 op)) scenario_after_cancel = true)
    by (vm_compute; reflexivity).
  assert (H2 : run 16 scenario_after_cancel
                 (snd (OrderBook.cancel_order 7
                         (book_of [ Add (Order.make 7 true (cents 10000) 10 1000) ])))
               = Some (later_cancel_outcomes, later_cancel_book))
    by (vm_compute; reflexivity).
  split; [exact H1|]. split; [exact H2|].
  pose proof (cancel_again_changes_nothing 16 7 scenario_after_cancel _ _ _ H1 H2) as H.
  split; [exact (proj1 H)|exact (proj1 (proj2 H))].
Defined.
